(** * The RocketChat callback plugin (rocketchat.py), embedded in Rocq

    [CallbackModule] is an Ansible callback plugin: the host calls
    [__init__], then [set_options], then the three event hooks
    [v2_playbook_on_start], [v2_playbook_on_play_start] and
    [v2_playbook_on_stats]; each hook renders a message and hands it to
    [send_msg], which posts it to the webhook with [open_url].

    The plugin object and the outside world (the display's warning and
    debug channels, the calls made to [open_url]) are threaded through a
    small state-and-exception monad.  Library functions the plugin calls
    ([json.dumps], [open_url], [os.path], [prettytable]) are fields of an
    environment record the development is parametrised by. *)

From Stdlib Require Import List String Ascii ZArith Bool Lia.
From Stdlib Require Import Sorting.Sorted Sorting.Permutation.
Import ListNotations.
Open Scope string_scope.
Set Warnings "-register-all".

(** ** Python values *)

(** The line feed, written ['\n'] in the source. *)
Definition LF : string := String (ascii_of_nat 10) EmptyString.

(** [l.append(x)] *)
Definition list_append {A : Type} (l : list A) (x : A) : list A :=
  (l ++ [x])%list.

(** [sep.join(l)] *)
Definition join (sep : string) (l : list string) : string := concat sep l.

(** A raised exception: whether its class derives from [Exception] (all
    of urllib's, ssl's and socket's errors do; [KeyboardInterrupt] and
    [SystemExit] do not), and [str(e)]. *)
Record pyexn : Type := MkExn { is_Exception : bool; exn_str : string }.

Inductive result (A : Type) : Type :=
| Return (a : A)
| Raise (e : pyexn).
Arguments Return {A} a.
Arguments Raise {A} e.

(** The values that make up the JSON payload: strings, lists and dicts
    (a dict literal keeps the order of its keys). *)
Inductive pyval : Type :=
| VStr (s : string)
| VList (l : list pyval)
| VDict (d : list (string * pyval)).

(** [d[k]] on a dict given as an association list; [None] is a missing key. *)
Fixpoint dict_get (d : list (string * pyval)) (k : string) : option pyval :=
  match d with
  | [] => None
  | (k', v) :: d' => if String.eqb k k' then Some v else dict_get d' k
  end.

(** [k in v] for a dict [v]. *)
Definition has_key (v : pyval) (k : string) : bool :=
  match v with
  | VDict d => match dict_get d k with Some _ => true | None => false end
  | _ => false
  end.

(** [v[k]] for a dict [v]. *)
Definition item (v : pyval) (k : string) : option pyval :=
  match v with
  | VDict d => dict_get d k
  | _ => None
  end.

(** [v[i]] for a list [v]. *)
Definition index (v : pyval) (i : nat) : option pyval :=
  match v with
  | VList l => nth_error l i
  | _ => None
  end.

(** [len(v)] for a list [v]. *)
Definition len (v : pyval) : option nat :=
  match v with
  | VList l => Some (List.length l)
  | _ => None
  end.

(** ['%s' % x] for an [x] that is a string or [None]. *)
Definition str_opt (x : option string) : string :=
  match x with
  | Some s => s
  | None => "None"
  end.

(** A command-line value that is a sequence of strings: [None], a list or
    a tuple.  (Ansible freezes the lists of [context.CLIARGS] into tuples.) *)
Inductive pyseq : Type :=
| SeqNone
| SeqList (l : list string)
| SeqTuple (l : list string).

(** Truth value of a sequence in an [if]: [None] and the empty sequence
    are false. *)
Definition seq_truthy (q : pyseq) : bool :=
  match q with
  | SeqNone => false
  | SeqList l | SeqTuple l => negb (Nat.eqb (List.length l) 0)
  end.

(** [q != l] for a list literal [l]: only a list with the same items is
    equal to it. *)
Definition seq_ne_list (q : pyseq) (l : list string) : bool :=
  match q with
  | SeqList l' => negb (if list_eq_dec string_dec l' l then true else false)
  | _ => true
  end.

(** The items of a sequence, for [join] and comprehensions; iterating
    over [None] raises [TypeError]. *)
Definition seq_items (q : pyseq) : result (list string) :=
  match q with
  | SeqNone => Raise (MkExn true "'NoneType' object is not iterable")
  | SeqList l | SeqTuple l => Return l
  end.

(** Truth value of a string-or-[None] in an [if]. *)
Definition opt_truthy (x : option string) : bool :=
  match x with
  | Some s => negb (String.eqb s "")
  | None => false
  end.

(** ** The collaborators of the plugin *)

(** The keyword arguments [send_msg] passes to [open_url].  A keyword the
    call does not pass is [None] here and takes [open_url]'s default. *)
Record Request : Type := MkRequest {
  req_url : option string;
  req_data : string;
  req_headers : list (string * string);
  req_method : option string;
  req_validate_certs : option bool
}.

(** [open_url]'s defaults (ansible.module_utils.urls): certificates are
    validated unless [validate_certs=False] is passed, and a request that
    carries data and names no method is a POST. *)
Definition effective_validate_certs (r : Request) : bool :=
  match req_validate_certs r with
  | Some b => b
  | None => true
  end.

Definition effective_method (r : Request) : string :=
  match req_method r with
  | Some m => m
  | None => "POST"
  end.

(** The object [open_url] returns; [read()] gives the body or raises. *)
Record Response : Type := MkResponse { read : result string }.

(** A cell of a table row: a host name or a counter. *)
Inductive cell : Type :=
| CStr (s : string)
| CInt (z : Z).

(** [prettytable.PrettyTable]: the column names and the rows added so far. *)
Record PrettyTable : Type := MkTable {
  field_names : list string;
  rows : list (list cell)
}.

(** [t.add_row(r)] *)
Definition add_row (t : PrettyTable) (r : list cell) : PrettyTable :=
  {| field_names := field_names t; rows := list_append (rows t) r |}.

(** [context.CLIARGS] of an ansible-playbook run. *)
Record CliArgs : Type := MkCliArgs {
  tags : pyseq;
  skip_tags : pyseq;
  extra_vars : pyseq;
  subset : option string;
  inventory : pyseq;
  remote_user : option string
}.

(** What [stats.summarize(h)] returns (the keys the plugin reads). *)
Record Summary : Type := MkSummary {
  ok : Z;
  changed : Z;
  unreachable : Z;
  failures : Z;
  rescued : Z;
  ignored : Z
}.

(** The host's [AggregateStats]: the keys of [stats.processed] in the
    order of the dict, and [stats.summarize]. *)
Record AggregateStats : Type := MkStats {
  processed : list string;
  summarize : string -> Summary
}.

(** What the module finds around it: whether [import prettytable]
    succeeded, the library functions it calls, and the host's global
    [context.CLIARGS] ([None] stands for the empty mapping a host leaves
    there when it has parsed no command line).  [open_url] sees the calls
    made before, so that a network may answer each call differently. *)
Record Env : Type := MkEnv {
  HAS_PRETTYTABLE : bool;
  json_dumps : pyval -> result string;
  open_url : list Request -> Request -> result Response;
  abspath : string -> string;
  basename : string -> string;
  table_str : PrettyTable -> string;
  CLIARGS : option CliArgs
}.

(** ** The plugin object and the world *)

(** The values [get_option] resolves, as [set_options] stores them, and
    [show_invocation], which it derives from the display's verbosity. *)
Record Options : Type := MkOptions {
  webhook_url : option string;
  channel : string;
  username : string;
  show_invocation : bool;
  validate_certs : bool;
  icon_emoji : string;
  icon_url : string
}.

(** The attributes of [self].  Those that [set_options] creates do not
    exist before it has run: [options] is [None] until then. *)
Record CallbackModule : Type := MkCallback {
  disabled : bool;
  playbook_name : option string;
  guid : string;
  options : option Options
}.

(** What the plugin does to the outside: warnings and debug lines sent
    to the display, and the calls made to [open_url], oldest first. *)
Record World : Type := MkWorld {
  warnings : list string;
  debug_log : list string;
  http_calls : list Request
}.

Record St : Type := MkSt { self : CallbackModule; world : World }.

(** ** The monad: state and exceptions *)

Definition M (A : Type) : Type := St -> result A * St.

Definition ret {A} (a : A) : M A := fun s => (Return a, s).

Definition raise {A} (e : pyexn) : M A := fun s => (Raise e, s).

Definition bind {A B} (m : M A) (f : A -> M B) : M B :=
  fun s =>
    match m s with
    | (Return a, s') => f a s'
    | (Raise e, s') => (Raise e, s')
    end.

Declare Scope py_scope.
Delimit Scope py_scope with py.
Notation "x <- m ;; k" := (bind m (fun x => k))
  (at level 61, m at next level, right associativity) : py_scope.
Notation "m ;; k" := (bind m (fun _ => k))
  (at level 61, right associativity) : py_scope.
Open Scope py_scope.

(** A library call that returns or raises. *)
Definition lift {A} (r : result A) : M A := fun s => (r, s).

(** [try: m  except Exception as e: h e] *)
Definition try_except {A} (m : M A) (h : pyexn -> M A) : M A :=
  fun s =>
    match m s with
    | (Return a, s') => (Return a, s')
    | (Raise e, s') => if is_Exception e then h e s' else (Raise e, s')
    end.

Definition get_self : M CallbackModule := fun s => (Return (self s), s).

Definition put_self (c : CallbackModule) : M unit :=
  fun s => (Return tt, {| self := c; world := world s |}).

(** Reading an attribute that [set_options] creates. *)
Definition get_options : M Options :=
  fun s =>
    match options (self s) with
    | Some o => (Return o, s)
    | None => (Raise (MkExn true "'CallbackModule' object has no attribute"), s)
    end.

(** [self._display.warning(msg)] *)
Definition warning (msg : string) : M unit :=
  fun s =>
    let w := world s in
    (Return tt,
     {| self := self s;
        world := {| warnings := list_append (warnings w) msg;
                    debug_log := debug_log w;
                    http_calls := http_calls w |} |}).

(** [self._display.debug(msg)] *)
Definition debug (msg : string) : M unit :=
  fun s =>
    let w := world s in
    (Return tt,
     {| self := self s;
        world := {| warnings := warnings w;
                    debug_log := list_append (debug_log w) msg;
                    http_calls := http_calls w |} |}).

(** ** The plugin *)

Section Plugin.

Variable E : Env.

(** [CallbackModule.__init__]: [CallbackBase.__init__] starts the object
    enabled; [uuid_hex] is [uuid.uuid4().hex], drawn by the caller. *)
Definition __init__ (uuid_hex : string) : World -> St :=
  fun w =>
    let s0 :=
      {| self := {| disabled := false; playbook_name := None;
                    guid := ""; options := None |};
         world := w |} in
    let s1 :=
      if negb (HAS_PRETTYTABLE E) then
        snd ((c <- get_self ;;
              put_self {| disabled := true; playbook_name := playbook_name c;
                          guid := guid c; options := options c |} ;;
              warning ("The `prettytable` python module is not "
                       ++ "installed. Disabling the RocketChat callback "
                       ++ "plugin.")) s0)
      else s0 in
    {| self := {| disabled := disabled (self s1); playbook_name := None;
                  guid := substring 0 6 uuid_hex;
                  options := options (self s1) |};
       world := world s1 |}.

(** [CallbackModule.set_options].  [get_option] and [verbosity] are the
    host's: the resolved value of each declared option, and
    [self._display.verbosity] ([show_invocation] is not an option: that
    field of [get_option] is not read). *)
Definition set_options (get_option : Options) (verbosity : Z) : M unit :=
  c <- get_self ;;
  let o := {| webhook_url := webhook_url get_option;
              channel := channel get_option;
              username := username get_option;
              show_invocation := (1 <? verbosity)%Z;
              validate_certs := validate_certs get_option;
              icon_emoji := icon_emoji get_option;
              icon_url := icon_url get_option |} in
  put_self {| disabled := disabled c; playbook_name := playbook_name c;
              guid := guid c; options := Some o |} ;;
  match webhook_url o with
  | None =>
      c <- get_self ;;
      put_self {| disabled := true; playbook_name := playbook_name c;
                  guid := guid c; options := options c |} ;;
      warning ("Slack Webhook URL was not provided. The "
               ++ "Slack Webhook URL can be provided using "
               ++ "the `SLACK_WEBHOOK_URL` environment "
               ++ "variable.")
  | Some _ => ret tt
  end.

(** The call [open_url(url, data=data, headers=headers)]: it is recorded,
    and the network answers. *)
Definition call_open_url (url : option string) (data : string)
    (headers : list (string * string)) : M Response :=
  fun s =>
    let w := world s in
    let r := {| req_url := url; req_data := data; req_headers := headers;
                req_method := None; req_validate_certs := None |} in
    (open_url E (http_calls w) r,
     {| self := self s;
        world := {| warnings := warnings w;
                    debug_log := debug_log w;
                    http_calls := list_append (http_calls w) r |} |}).

(** The payload dict [send_msg] builds. *)
Definition payload (o : Options) (attachments : pyval) : pyval :=
  VDict [("username", VStr (username o));
         ("channel", VStr (channel o));
         ("icon_url", VStr (icon_url o));
         ("icon_emoji", VStr (icon_emoji o));
         ("attachments", attachments);
         ("parse", VStr "none")].

(** [CallbackModule.send_msg]; it returns the body read, or [None]. *)
Definition send_msg (attachments : pyval) : M (option string) :=
  let headers := [("Content-type", "application/json")] in
  o <- get_options ;;
  data <- lift (json_dumps E (payload o attachments)) ;;
  debug data ;;
  debug (str_opt (webhook_url o)) ;;
  try_except
    (response <- call_open_url (webhook_url o) data headers ;;
     body <- lift (read response) ;;
     ret (Some body))
    (fun e =>
       warning ("Could not submit message to RocketChat: " ++ exn_str e) ;;
       ret None).

(** *** [v2_playbook_on_start] *)

(** The items of a sequence that passed an [if] ([None] did not). *)
Definition seq_list (q : pyseq) : list string :=
  match q with
  | SeqNone => []
  | SeqList l | SeqTuple l => l
  end.

(** The lines appended to [invocation_items]; [inventory] is the list of
    absolute paths the comprehension built. *)
Definition invocation_items (a : CliArgs) (inventory : list string)
    : list string :=
  let items := ["Inventory:  " ++ join ", " inventory] in
  let items :=
    if seq_truthy (tags a) && seq_ne_list (tags a) ["all"]
    then list_append items ("Tags:       " ++ join ", " (seq_list (tags a)))
    else items in
  let items :=
    if seq_truthy (skip_tags a)
    then list_append items ("Skip Tags:  " ++ join ", " (seq_list (skip_tags a)))
    else items in
  let items :=
    if opt_truthy (subset a)
    then list_append items ("Limit:      " ++ str_opt (subset a))
    else items in
  let items :=
    if seq_truthy (extra_vars a)
    then list_append items ("Extra Vars: " ++ join " " (seq_list (extra_vars a)))
    else items in
  items.

(** [msg], from the finished [title] and [invocation_items]. *)
Definition start_msg (title items : list string) : string :=
  let msg_items := [join " " title] in
  let msg_items :=
    match items with
    | [] => msg_items
    | _ :: _ =>
        list_append msg_items ("```" ++ LF ++ join LF items ++ LF ++ "```")
    end in
  join LF msg_items.

Definition mrkdwn_in : pyval := VList [VStr "text"; VStr "fallback"; VStr "fields"].

Definition start_attachments (msg : string) : pyval :=
  VList [VDict [("fallback", VStr msg);
                ("fields", VList [VDict [("value", VStr msg)]]);
                ("color", VStr "warning");
                ("mrkdwn_in", mrkdwn_in)]].

(** Lines 171 to 203: everything up to [msg].  [playbook_file_name] is
    [playbook._file_name]. *)
Definition start_message (playbook_file_name : string) : M string :=
  c <- get_self ;;
  put_self {| disabled := disabled c;
              playbook_name := Some (basename E playbook_file_name);
              guid := guid c; options := options c |} ;;
  c <- get_self ;;
  let title := ["*Playbook initiated* (_" ++ guid c ++ "_)"] in
  r <- match CLIARGS E with
       | Some a =>
           o <- get_options ;;
           if show_invocation o then
             inv <- lift (seq_items (inventory a)) ;;
             ret (invocation_items a (map (abspath E) inv),
                  list_append title ("by *" ++ str_opt (remote_user a) ++ "*"))
           else ret ([], title)
       | None => ret ([], title)
       end ;;
  let title :=
    list_append (snd r)
      (LF ++ LF ++ "*" ++ str_opt (playbook_name c) ++ "*") in
  ret (start_msg title (fst r)).

Definition v2_playbook_on_start (playbook_file_name : string) : M unit :=
  msg <- start_message playbook_file_name ;;
  send_msg (start_attachments msg) ;;
  ret tt.

(** *** [v2_playbook_on_play_start] *)

(** The attributes of [play] the hook reads. *)
Record Play : Type := MkPlay { name : string; _uuid : string }.

Definition play_msg (g : string) (play : Play) : string :=
  let name :=
    if String.eqb (name play) ""
    then "Play name not specified (" ++ _uuid play ++ ")"
    else name play in
  "*Starting play* (_" ++ g ++ "_)" ++ LF ++ LF ++ "*" ++ name ++ "*".

Definition play_attachments (msg : string) : pyval :=
  VList [VDict [("fallback", VStr msg);
                ("text", VStr msg);
                ("color", VStr "warning");
                ("mrkdwn_in", mrkdwn_in)]].

Definition play_message (play : Play) : M string :=
  c <- get_self ;;
  ret (play_msg (guid c) play).

Definition v2_playbook_on_play_start (play : Play) : M unit :=
  msg <- play_message play ;;
  send_msg (play_attachments msg) ;;
  ret tt.

(** *** [v2_playbook_on_stats] *)

(** [sorted] on strings: by [<], which compares character by character. *)
Fixpoint insert (x : string) (l : list string) : list string :=
  match l with
  | [] => [x]
  | y :: l' => if (x <? y)%string then x :: l else y :: insert x l'
  end.

Definition sorted (l : list string) : list string :=
  fold_right insert [] l.

(** One turn of [for h in hosts]; the state is the two flags and [t]. *)
Definition stats_step (stats : AggregateStats)
    (acc : bool * bool * PrettyTable) (h : string)
    : bool * bool * PrettyTable :=
  let '(any_failures, any_unreachable, t) := acc in
  let s := summarize stats h in
  let any_failures := if (failures s >? 0)%Z then true else any_failures in
  let any_unreachable :=
    if (unreachable s >? 0)%Z then true else any_unreachable in
  (any_failures, any_unreachable,
   add_row t (CStr h :: map CInt [ok s; changed s; unreachable s;
                                  failures s; rescued s; ignored s])).

(** The loop over the sorted hosts, from both flags [False] and the
    empty table. *)
Definition stats_loop (stats : AggregateStats) : bool * bool * PrettyTable :=
  let hosts := sorted (processed stats) in
  let t := {| field_names := ["Host"; "Ok"; "Changed"; "Unreachable";
                              "Failures"; "Rescued"; "Ignored"];
              rows := [] |} in
  fold_left (stats_step stats) hosts (false, false, t).

Definition stats_color (any_failures any_unreachable : bool) : string :=
  if any_failures || any_unreachable then "danger" else "good".

Definition stats_msg_items (g : string) (any_failures any_unreachable : bool)
    (t : PrettyTable) : list string :=
  let msg_items := ["*Playbook Complete* (_" ++ g ++ "_)"] in
  let msg_items :=
    if any_failures || any_unreachable
    then list_append msg_items (LF ++ "*Failed!*")
    else list_append msg_items (LF ++ "*Success!*") in
  list_append msg_items ("```" ++ LF ++ table_str E t ++ LF ++ "```").

Definition stats_attachments (msg color : string) : pyval :=
  VList (list_append []
           (VDict [("fallback", VStr msg);
                   ("fields", VList [VDict [("value", VStr msg)]]);
                   ("color", VStr color);
                   ("mrkdwn_in", mrkdwn_in)])).

(** Lines 236 to 268: everything up to [msg], with [color]. *)
Definition stats_message (stats : AggregateStats) : M (string * string) :=
  if negb (HAS_PRETTYTABLE E) then
    raise (MkExn true "name 'prettytable' is not defined")
  else
    let '(any_failures, any_unreachable, t) := stats_loop stats in
    c <- get_self ;;
    ret (join LF (stats_msg_items (guid c) any_failures any_unreachable t),
         stats_color any_failures any_unreachable).

Definition v2_playbook_on_stats (stats : AggregateStats) : M unit :=
  r <- stats_message stats ;;
  send_msg (stats_attachments (fst r) (snd r)) ;;
  ret tt.

(** *** The host's side *)

Inductive Event : Type :=
| RunStart (playbook_file_name : string)
| PlayStart (play : Play)
| RunStats (stats : AggregateStats).

Definition hook (ev : Event) : M unit :=
  match ev with
  | RunStart f => v2_playbook_on_start f
  | PlayStart p => v2_playbook_on_play_start p
  | RunStats st => v2_playbook_on_stats st
  end.

(** Modelled from the spec: the host's event dispatch, which is not part
    of this repository.  Each event triggers one call of the matching
    hook, "skipped entirely if the adapter is disabled"; the run goes on
    from the state the hook leaves, whether it returned or raised. *)
Definition host_dispatch (s : St) (ev : Event) : St :=
  if disabled (self s) then s else snd (hook ev s).

Definition host_run (evs : list Event) (s : St) : St :=
  fold_left host_dispatch evs s.

End Plugin.

(** ** Vocabulary of the statements *)

(** The order [sorted] sorts by: [a <= b] on strings, character by
    character. *)
Definition str_le (a b : string) : Prop := (a <=? b)%string = true.

(** The row the loop adds for host [h]. *)
Definition stats_row (stats : AggregateStats) (h : string) : list cell :=
  let s := summarize stats h in
  CStr h :: map CInt [ok s; changed s; unreachable s;
                      failures s; rescued s; ignored s].

(** The host a row is about: its first cell. *)
Definition row_host (r : list cell) : string :=
  match r with
  | CStr h :: _ => h
  | _ => ""
  end.

(** At least one host row has [failures > 0] or [unreachable > 0]. *)
Definition any_host_failed (stats : AggregateStats) : Prop :=
  exists h, In h (processed stats) /\
            (failures (summarize stats h) > 0 \/
             unreachable (summarize stats h) > 0)%Z.

(** [attachments[0][k]] *)
Definition attachment_item (attachments : pyval) (k : string) : option pyval :=
  match index attachments 0 with
  | Some a => item a k
  | None => None
  end.

(** [attachments[0]] has key [k]. *)
Definition attachment_has (attachments : pyval) (k : string) : bool :=
  match index attachments 0 with
  | Some a => has_key a k
  | None => false
  end.

(** What the guarded block of [send_msg] meets: the exception [open_url]
    or [read] raises, or the body read. *)
Definition delivery (E : Env) (before : list Request) (r : Request)
    : result string :=
  match open_url E before r with
  | Return response => read response
  | Raise e => Raise e
  end.

(** The request [send_msg] makes for options [o] and serialised [data]. *)
Definition request_of (o : Options) (data : string) : Request :=
  {| req_url := webhook_url o; req_data := data;
     req_headers := [("Content-type", "application/json")];
     req_method := None; req_validate_certs := None |}.

(** The world after the two debug lines of [send_msg] and its call to
    [open_url]. *)
Definition posted (w : World) (o : Options) (data : string) : World :=
  {| warnings := warnings w;
     debug_log :=
       list_append (list_append (debug_log w) data) (str_opt (webhook_url o));
     http_calls := list_append (http_calls w) (request_of o data) |}.

(** The tests of the loop, per host. *)
Definition host_failed (stats : AggregateStats) (h : string) : bool :=
  (failures (summarize stats h) >? 0)%Z.

Definition host_dark (stats : AggregateStats) (h : string) : bool :=
  (unreachable (summarize stats h) >? 0)%Z.

(** What can happen to a plugin object in its life: the host sets its
    options, calls one of its hooks, or a message is sent. *)
Inductive step (E : Env) : St -> St -> Prop :=
| step_set_options (get_option : Options) (verbosity : Z) (s : St) :
    step E s (snd (set_options get_option verbosity s))
| step_hook (ev : Event) (s : St) :
    step E s (snd (hook E ev s))
| step_send_msg (attachments : pyval) (s : St) :
    step E s (snd (send_msg E attachments s)).

Inductive reachable (E : Env) (s0 : St) : St -> Prop :=
| reach_here : reachable E s0 s0
| reach_step (s s' : St) : reachable E s0 s -> step E s s' -> reachable E s0 s'.

(** The state [start_message] leaves: [playbook_name] is set. *)
Definition named (E : Env) (playbook_file_name : string) (s : St) : St :=
  {| self := {| disabled := disabled (self s);
                playbook_name := Some (basename E playbook_file_name);
                guid := guid (self s); options := options (self s) |};
     world := world s |}.

(** A line that is there or not. *)
Definition line_if (b : bool) (line : string) : list string :=
  if b then [line] else [].

(** A computation that leaves the correlation id of [self] as it is. *)
Definition keeps_guid {A : Type} (m : M A) : Prop :=
  forall s, guid (self (snd (m s))) = guid (self s).

(** [s.endswith(suffix)] *)
Definition endswith (s suffix : string) : bool :=
  let n := String.length s in
  let m := String.length suffix in
  (m <=? n)%nat && String.eqb (substring (n - m) m s) suffix.

(** ** A concrete environment, for the examples *)

Definition QUOTE : string := String (ascii_of_nat 34) EmptyString.

(** A plain serialiser: JSON without escapes. *)
Fixpoint demo_dumps (v : pyval) : string :=
  match v with
  | VStr s => QUOTE ++ s ++ QUOTE
  | VList l => "[" ++ join ", " (map demo_dumps l) ++ "]"
  | VDict d =>
      "{" ++ join ", "
               (map (fun p => QUOTE ++ fst p ++ QUOTE ++ ": " ++ demo_dumps (snd p)) d)
          ++ "}"
  end.

(** A table printed as its host column. *)
Definition demo_table_str (t : PrettyTable) : string :=
  join LF (map row_host (rows t)).

(** The part of a path after its last slash. *)
Fixpoint demo_basename_from (path last : string) : string :=
  match path with
  | EmptyString => last
  | String c rest =>
      if Ascii.eqb c "/"%char then demo_basename_from rest ""
      else demo_basename_from rest (last ++ String c "")
  end.

Definition demo_basename (path : string) : string :=
  demo_basename_from path "".

(** Paths taken relative to [/srv]. *)
Definition demo_abspath (path : string) : string :=
  if prefix "/" path then path else "/srv/" ++ path.

(** A webhook that accepts every post. *)
Definition demo_open_url (before : list Request) (r : Request)
    : result Response :=
  Return {| read := Return "{success:true}" |}.

Definition demo_env (cli : option CliArgs) : Env :=
  {| HAS_PRETTYTABLE := true;
     json_dumps := fun v => Return (demo_dumps v);
     open_url := demo_open_url;
     abspath := demo_abspath;
     basename := demo_basename;
     table_str := demo_table_str;
     CLIARGS := cli |}.

(** [json.dumps] under Python 2, which the module also supports: a byte
    string that is not UTF-8 (here: one holding the byte 0xff) makes it
    raise [UnicodeDecodeError]. *)
Fixpoint has_byte_ff (s : string) : bool :=
  match s with
  | EmptyString => false
  | String c rest => Ascii.eqb c (ascii_of_nat 255) || has_byte_ff rest
  end.

Fixpoint undecodable (v : pyval) : bool :=
  match v with
  | VStr s => has_byte_ff s
  | VList l => existsb undecodable l
  | VDict d => existsb (fun p => has_byte_ff (fst p) || undecodable (snd p)) d
  end.

Definition py2_dumps (v : pyval) : result string :=
  if undecodable v
  then Raise (MkExn true "'utf8' codec can't decode byte 0xff")
  else Return (demo_dumps v).

Definition py2_env (cli : option CliArgs) : Env :=
  {| HAS_PRETTYTABLE := true;
     json_dumps := py2_dumps;
     open_url := demo_open_url;
     abspath := demo_abspath;
     basename := demo_basename;
     table_str := demo_table_str;
     CLIARGS := cli |}.

(** A webhook that cannot be reached. *)
Definition down_env (cli : option CliArgs) : Env :=
  {| HAS_PRETTYTABLE := true;
     json_dumps := fun v => Return (demo_dumps v);
     open_url := fun _ _ => Raise (MkExn true "<urlopen error timed out>");
     abspath := demo_abspath;
     basename := demo_basename;
     table_str := demo_table_str;
     CLIARGS := cli |}.

Definition no_world : World :=
  {| warnings := []; debug_log := []; http_calls := [] |}.

Definition demo_options (url : option string) (certs : bool) : Options :=
  {| webhook_url := url; channel := ""; username := "ansible";
     show_invocation := false; validate_certs := certs;
     icon_emoji := ""; icon_url := "" |}.

(** A plugin constructed and configured by the host. *)
Definition configured (E : Env) (url : option string) (certs : bool)
    (verbosity : Z) : St :=
  snd (set_options (demo_options url certs) verbosity
         (__init__ E "3f2a9c0e8b7d4c1fa5e6d7c8b9a0f1e2" no_world)).

Definition demo_summary (f u : Z) : Summary :=
  {| ok := 3; changed := 1; unreachable := u; failures := f;
     rescued := 0; ignored := 0 |}.

Definition demo_stats (hosts : list string) : AggregateStats :=
  {| processed := hosts;
     summarize := fun h => if String.eqb h "a" then demo_summary 1 0
                           else demo_summary 0 0 |}.

Definition demo_cli (inv : pyseq) (user : option string) : CliArgs :=
  {| tags := SeqList ["all"]; skip_tags := SeqTuple [];
     extra_vars := SeqTuple []; subset := None;
     inventory := inv; remote_user := user |}.

(** ** Vocabulary of the further properties *)

(** The strict order of strings, [a < b]. *)
Definition str_lt (a b : string) : Prop := (a <? b)%string = true.

(** [x is None] *)
Definition is_none {A : Type} (x : option A) : bool :=
  match x with
  | Some _ => false
  | None => true
  end.

(** A computation that leaves an attribute of [self] as it is. *)
Definition keeps_attr {A B : Type} (attr : CallbackModule -> B) (m : M A)
    : Prop :=
  forall s, attr (self (snd (m s))) = attr (self s).

(** A computation that does nothing to the outside. *)
Definition keeps_world {A : Type} (m : M A) : Prop :=
  forall s, world (snd (m s)) = world s.

(** The hooks called one after the other on the plugin object, each from
    the state the one before left. *)
Definition call_hooks (E : Env) (evs : list Event) (s : St) : St :=
  fold_left (fun s ev => snd (hook E ev s)) evs s.

(** The state in which a hook reaches [send_msg], if it does. *)
Definition composed (E : Env) (ev : Event) (s : St) : St :=
  match ev with
  | RunStart f => named E f s
  | PlayStart _ | RunStats _ => s
  end.

(** The attachments a hook composes in state [s], or the exception it
    raises while composing. *)
Definition hook_attachments (E : Env) (ev : Event) (s : St) : result pyval :=
  match ev with
  | RunStart f =>
      match fst (start_message E f s) with
      | Return m => Return (start_attachments m)
      | Raise e => Raise e
      end
  | PlayStart p => Return (play_attachments (play_msg (guid (self s)) p))
  | RunStats st =>
      match fst (stats_message E st s) with
      | Return r => Return (stats_attachments (fst r) (snd r))
      | Raise e => Raise e
      end
  end.

(** The playbook name after a sequence of hooks: that of the last
    run-start among them. *)
Definition last_run_start (E : Env) (evs : list Event) (before : option string)
    : option string :=
  fold_left (fun n ev => match ev with
                         | RunStart f => Some (basename E f)
                         | PlayStart _ | RunStats _ => n
                         end) evs before.

(** The warning of [send_msg] for an exception [e]. *)
Definition submit_warning (e : pyexn) : string :=
  "Could not submit message to RocketChat: " ++ exn_str e.

(** A run that is interrupted from the keyboard while the request is
    under way: [open_url] raises [KeyboardInterrupt], which is not an
    [Exception]. *)
Definition interrupted_env (cli : option CliArgs) : Env :=
  {| HAS_PRETTYTABLE := true;
     json_dumps := fun v => Return (demo_dumps v);
     open_url := fun _ _ => Raise (MkExn false "KeyboardInterrupt");
     abspath := demo_abspath;
     basename := demo_basename;
     table_str := demo_table_str;
     CLIARGS := cli |}.

(** A host without the table library. *)
Definition bare_env (cli : option CliArgs) : Env :=
  {| HAS_PRETTYTABLE := false;
     json_dumps := fun v => Return (demo_dumps v);
     open_url := demo_open_url;
     abspath := demo_abspath;
     basename := demo_basename;
     table_str := demo_table_str;
     CLIARGS := cli |}.

(** * Properties *)

(** ** The order of strings and [sorted] *)

Section Sorting.

Lemma ascii_compare_refl (c : ascii) : Ascii.compare c c = Eq.
Proof. unfold Ascii.compare. apply N.compare_refl. Qed.

Lemma ascii_compare_lt_trans (x y z : ascii) :
  Ascii.compare x y = Lt -> Ascii.compare y z = Lt -> Ascii.compare x z = Lt.
Proof.
  unfold Ascii.compare. rewrite !N.compare_lt_iff. apply N.lt_trans.
Qed.

Lemma compare_not_gt_trans (a : string) :
  forall b c, String.compare a b <> Gt -> String.compare b c <> Gt ->
              String.compare a c <> Gt.
Proof.
  induction a as [|x a IH]; intros b c Hab Hbc.
  - destruct c; simpl; discriminate.
  - destruct b as [|y b]; simpl in Hab; [congruence|].
    destruct c as [|z c]; simpl in Hbc; [congruence|].
    simpl.
    destruct (Ascii.compare x y) eqn:Hxy; try congruence;
      destruct (Ascii.compare y z) eqn:Hyz; try congruence.
    + apply Ascii.compare_eq_iff in Hxy, Hyz. subst.
      rewrite ascii_compare_refl. eauto.
    + apply Ascii.compare_eq_iff in Hxy. subst. rewrite Hyz. discriminate.
    + apply Ascii.compare_eq_iff in Hyz. subst. rewrite Hxy. discriminate.
    + rewrite (ascii_compare_lt_trans _ _ _ Hxy Hyz). discriminate.
Qed.

Lemma str_le_iff (a b : string) : str_le a b <-> String.compare a b <> Gt.
Proof.
  unfold str_le, String.leb.
  destruct (String.compare a b); split; congruence.
Qed.

Lemma str_le_trans (a b c : string) : str_le a b -> str_le b c -> str_le a c.
Proof. rewrite !str_le_iff. apply compare_not_gt_trans. Qed.

Lemma str_le_antisym (a b : string) : str_le a b -> str_le b a -> a = b.
Proof. apply String.leb_antisym. Qed.

Lemma ltb_le (a b : string) : (a <? b)%string = true -> str_le a b.
Proof.
  unfold String.ltb, str_le, String.leb.
  destruct (String.compare a b); congruence.
Qed.

Lemma ltb_false_le (a b : string) : (a <? b)%string = false -> str_le b a.
Proof.
  unfold String.ltb, str_le, String.leb.
  rewrite (String.compare_antisym b a).
  destruct (String.compare a b); simpl; congruence.
Qed.

Lemma insert_perm (x : string) (l : list string) :
  Permutation (insert x l) (x :: l).
Proof.
  induction l as [|y l IH]; simpl.
  - apply Permutation_refl.
  - destruct (x <? y)%string.
    + apply Permutation_refl.
    + apply perm_trans with (y :: x :: l).
      * apply perm_skip, IH.
      * apply perm_swap.
Qed.

Lemma sorted_perm (l : list string) : Permutation (sorted l) l.
Proof.
  induction l as [|x l IH]; simpl.
  - apply perm_nil.
  - apply perm_trans with (x :: sorted l).
    + apply insert_perm.
    + apply perm_skip, IH.
Qed.

Lemma insert_sorted (x : string) (l : list string) :
  StronglySorted str_le l -> StronglySorted str_le (insert x l).
Proof.
  induction 1 as [|y l Hs IH Hy]; simpl.
  - constructor; constructor.
  - destruct (x <? y)%string eqn:Hxy.
    + constructor.
      * constructor; assumption.
      * constructor.
        -- apply ltb_le, Hxy.
        -- apply Forall_impl with (P := str_le y); [|assumption].
           intros z Hz. apply str_le_trans with y; [apply ltb_le, Hxy | exact Hz].
    + constructor.
      * exact IH.
      * apply Permutation_Forall with (x :: l).
        -- apply Permutation_sym, insert_perm.
        -- constructor; [apply ltb_false_le, Hxy | assumption].
Qed.

Lemma sorted_sorted (l : list string) : StronglySorted str_le (sorted l).
Proof.
  induction l as [|x l IH]; simpl.
  - constructor.
  - apply insert_sorted, IH.
Qed.

Lemma str_le_refl (a : string) : str_le a a.
Proof. destruct (String.leb_total a a); assumption. Qed.

Lemma head_le (a b : string) (l : list string) :
  Forall (str_le a) l -> In b (a :: l) -> str_le a b.
Proof.
  intros Hall [<-|Hin].
  - apply str_le_refl.
  - rewrite Forall_forall in Hall. apply Hall, Hin.
Qed.

(** An ascending list is determined by its items. *)
Lemma sorted_unique (l1 : list string) :
  forall l2, StronglySorted str_le l1 -> StronglySorted str_le l2 ->
             Permutation l1 l2 -> l1 = l2.
Proof.
  induction l1 as [|a l1 IH]; intros l2 H1 H2 HP.
  - apply Permutation_nil in HP. congruence.
  - destruct l2 as [|b l2].
    + apply Permutation_sym, Permutation_nil in HP. discriminate.
    + apply StronglySorted_inv in H1. destruct H1 as [H1 Ha].
      apply StronglySorted_inv in H2. destruct H2 as [H2 Hb].
      assert (a = b) as Hab.
      { apply str_le_antisym.
        - apply head_le with l1; [exact Ha|].
          apply Permutation_in with (b :: l2);
            [apply Permutation_sym, HP | left; reflexivity].
        - apply head_le with l2; [exact Hb|].
          apply Permutation_in with (a :: l1); [exact HP | left; reflexivity]. }
      subst b. f_equal. apply IH; try assumption.
      apply Permutation_cons_inv with a, HP.
Qed.

(** [sorted] does not depend on the order of its input. *)
Lemma sorted_perm_eq (l1 l2 : list string) :
  Permutation l1 l2 -> sorted l1 = sorted l2.
Proof.
  intros HP. apply sorted_unique; try apply sorted_sorted.
  apply perm_trans with l1; [apply sorted_perm|].
  apply perm_trans with l2; [exact HP | apply Permutation_sym, sorted_perm].
Qed.

End Sorting.

(** ** The statistics message *)

Section Stats.

Variable stats : AggregateStats.

(** The loop, from any state: the flags accumulate, the rows are appended
    in the order of the hosts. *)
Lemma stats_fold (hosts : list string) :
  forall f u t,
    fold_left (stats_step stats) hosts (f, u, t) =
    (f || existsb (host_failed stats) hosts, u || existsb (host_dark stats) hosts,
     {| field_names := field_names t;
        rows := (rows t ++ map (stats_row stats) hosts)%list |}).
Proof.
  induction hosts as [|h hosts IH]; intros f u t; simpl.
  - rewrite !orb_false_r, app_nil_r. destruct t; reflexivity.
  - rewrite IH. unfold host_failed, host_dark, stats_row, add_row, list_append; simpl.
    rewrite <- !app_assoc; simpl.
    destruct (failures (summarize stats h) >? 0)%Z,
             (unreachable (summarize stats h) >? 0)%Z;
      simpl; rewrite ?orb_true_r; reflexivity.
Qed.

Lemma stats_loop_eq :
  stats_loop stats =
  (existsb (host_failed stats) (sorted (processed stats)),
   existsb (host_dark stats) (sorted (processed stats)),
   {| field_names := ["Host"; "Ok"; "Changed"; "Unreachable";
                      "Failures"; "Rescued"; "Ignored"];
      rows := map (stats_row stats) (sorted (processed stats)) |}).
Proof. unfold stats_loop. rewrite stats_fold. reflexivity. Qed.

Lemma flags_iff :
  existsb (host_failed stats) (sorted (processed stats))
  || existsb (host_dark stats) (sorted (processed stats)) = true
  <-> any_host_failed stats.
Proof.
  rewrite orb_true_iff, !existsb_exists. unfold any_host_failed, host_failed, host_dark.
  split.
  - intros [[h [Hin Hf]]|[h [Hin Hu]]]; exists h; split;
      try (apply Permutation_in with (sorted (processed stats));
           [apply sorted_perm | exact Hin]).
    + left. apply Z.gtb_lt in Hf. lia.
    + right. apply Z.gtb_lt in Hu. lia.
  - intros [h [Hin [Hf|Hu]]]; [left|right]; exists h; split;
      try (apply Permutation_in with (processed stats);
           [apply Permutation_sym, sorted_perm | exact Hin]).
    + apply Z.gtb_lt. lia.
    + apply Z.gtb_lt. lia.
Qed.

Lemma stats_loop_flags :
  exists f u,
    stats_loop stats =
    (f, u, {| field_names := ["Host"; "Ok"; "Changed"; "Unreachable";
                              "Failures"; "Rescued"; "Ignored"];
              rows := map (stats_row stats) (sorted (processed stats)) |}) /\
    (f || u = true <-> any_host_failed stats).
Proof.
  exists (existsb (host_failed stats) (sorted (processed stats))),
         (existsb (host_dark stats) (sorted (processed stats))).
  split; [apply stats_loop_eq | apply flags_iff].
Qed.

Lemma map_row_host (hosts : list string) :
  map row_host (map (stats_row stats) hosts) = hosts.
Proof.
  induction hosts as [|h hosts IH]; simpl; [reflexivity|].
  f_equal. exact IH.
Qed.

End Stats.

(** C2.  Where the table library is there, the statistics hook composes
    its message with color "danger" and the line "*Failed!*" if and only
    if some processed host has failures > 0 or unreachable > 0, and with
    color "good" and the line "*Success!*" otherwise; that color is the
    attachment's. *)
Theorem C2_stats_color_and_header (E : Env) (stats : AggregateStats) (s : St) :
  HAS_PRETTYTABLE E = true ->
  exists msg color table,
    fst (stats_message E stats s) = Return (msg, color) /\
    attachment_item (stats_attachments msg color) "color" = Some (VStr color) /\
    (any_host_failed stats ->
       color = "danger" /\
       msg = ("*Playbook Complete* (_" ++ guid (self s) ++ "_)") ++ LF
             ++ (LF ++ "*Failed!*") ++ LF
             ++ ("```" ++ LF ++ table ++ LF ++ "```")) /\
    (~ any_host_failed stats ->
       color = "good" /\
       msg = ("*Playbook Complete* (_" ++ guid (self s) ++ "_)") ++ LF
             ++ (LF ++ "*Success!*") ++ LF
             ++ ("```" ++ LF ++ table ++ LF ++ "```")) /\
    (color = "danger" <-> any_host_failed stats).
Proof.
  intros HP. unfold stats_message. rewrite HP; simpl negb; cbv iota.
  destruct (stats_loop_flags stats) as [f [u [-> Hiff]]].
  set (t := {| field_names := _; rows := _ |}).
  unfold bind, get_self, ret; simpl.
  exists (join LF (stats_msg_items E (guid (self s)) f u t)),
         (stats_color f u), (table_str E t).
  split; [reflexivity|]. split; [reflexivity|].
  unfold stats_msg_items, stats_color.
  destruct (f || u) eqn:Hfu.
  - split; [intros _; split; reflexivity|].
    split; [intros Hno; exfalso; apply Hno, Hiff; reflexivity|].
    split; [intros _|intros _; reflexivity]. apply Hiff. reflexivity.
  - split; [intros Hbad; apply Hiff in Hbad; discriminate|].
    split; [intros _; split; reflexivity|].
    split; [discriminate|intros Hbad; apply Hiff in Hbad; discriminate].
Qed.

(** The hook at hosts b (clean) and a (one failure): the color is
    "danger". *)
Lemma C2_witness :
  exists msg color,
    fst (stats_message (demo_env None) (demo_stats ["b"; "a"])
           (configured (demo_env None) (Some "https://hooks.example/x") true 0))
    = Return (msg, color) /\
    color = "danger".
Proof.
  destruct (C2_stats_color_and_header (demo_env None) (demo_stats ["b"; "a"])
              (configured (demo_env None) (Some "https://hooks.example/x") true 0)
              eq_refl)
    as [msg [color [table [Hm [_ [Hbad _]]]]]].
  exists msg, color. split; [exact Hm|].
  apply Hbad. exists "a". split; [right; left; reflexivity|].
  left. vm_compute. reflexivity.
Defined.

Lemma append_assoc (a b c : string) : (a ++ b) ++ c = a ++ b ++ c.
Proof.
  induction a as [|x a IH]; simpl; [reflexivity|]. rewrite IH. reflexivity.
Qed.

Lemma existsb_pointwise {A : Type} (p q : A -> bool) (l : list A) :
  (forall x, p x = q x) -> existsb p l = existsb q l.
Proof.
  intros Hpq. induction l as [|x l IH]; simpl; [reflexivity|].
  rewrite Hpq, IH. reflexivity.
Qed.

Lemma stats_loop_perm (stats stats' : AggregateStats) :
  Permutation (processed stats') (processed stats) ->
  (forall h, summarize stats' h = summarize stats h) ->
  stats_loop stats' = stats_loop stats.
Proof.
  intros HP Hsum. rewrite !stats_loop_eq, (sorted_perm_eq _ _ HP).
  f_equal; [f_equal|f_equal].
  - apply existsb_pointwise. intros h. unfold host_failed.
    rewrite Hsum. reflexivity.
  - apply existsb_pointwise. intros h. unfold host_dark.
    rewrite Hsum. reflexivity.
  - apply map_ext. intros h. unfold stats_row. rewrite Hsum. reflexivity.
Qed.

(** C3.  The table the statistics hook renders has one row per processed
    host, the row of that host's counters, and its rows are in ascending
    lexicographic order of the host names, whatever the order of the hosts
    in the input: two inputs with the same hosts and counters give the
    same table. *)
Theorem C3_rows_sorted_by_host (E : Env) (stats : AggregateStats) (s : St) :
  let t := snd (stats_loop stats) in
  let hosts := map row_host (rows t) in
  rows t = map (stats_row stats) hosts /\
  StronglySorted str_le hosts /\
  Permutation hosts (processed stats) /\
  (forall stats',
     Permutation (processed stats') (processed stats) ->
     (forall h, summarize stats' h = summarize stats h) ->
     stats_loop stats' = stats_loop stats) /\
  (HAS_PRETTYTABLE E = true ->
   exists head color,
     fst (stats_message E stats s) =
     Return (head ++ LF ++ ("```" ++ LF ++ table_str E t ++ LF ++ "```"),
             color)).
Proof.
  cbv zeta.
  assert (map row_host (rows (snd (stats_loop stats)))
          = sorted (processed stats)) as Hhosts
    by (rewrite stats_loop_eq; apply map_row_host).
  rewrite Hhosts.
  split; [rewrite stats_loop_eq; reflexivity|].
  split; [apply sorted_sorted|].
  split; [apply sorted_perm|].
  split; [intros stats'; apply stats_loop_perm|].
  intros HP. unfold stats_message. rewrite HP. cbn [negb].
  destruct (stats_loop stats) as [[f u] t]. cbn [snd].
  unfold bind, get_self, ret, stats_msg_items, list_append; cbn [fst snd app].
  destruct (f || u); unfold join; cbn [app concat];
    match goal with
    | |- exists _ _, Return (?a ++ LF ++ ?b ++ LF ++ _, ?c) = _ =>
        exists (a ++ LF ++ b), c
    end; rewrite !append_assoc; reflexivity.
Qed.

(** Hosts given as b, a and as a, b: the same table, rows a then b. *)
Lemma C3_witness :
  stats_loop (demo_stats ["b"; "a"]) = stats_loop (demo_stats ["a"; "b"]) /\
  map row_host (rows (snd (stats_loop (demo_stats ["a"; "b"])))) = ["a"; "b"].
Proof.
  split; [|reflexivity].
  apply (proj1 (proj2 (proj2 (proj2
           (C3_rows_sorted_by_host (demo_env None) (demo_stats ["a"; "b"])
              (configured (demo_env None) None true 0)))))).
  - apply perm_swap.
  - intros h. reflexivity.
Defined.

(** ** Delivery *)

Section Delivery.

Variable E : Env.

(** [send_msg], once the options are set and the payload serialises. *)
Lemma send_msg_eq (attachments : pyval) (s : St) (o : Options) (data : string) :
  options (self s) = Some o ->
  json_dumps E (payload o attachments) = Return data ->
  send_msg E attachments s =
  match delivery E (http_calls (world s)) (request_of o data) with
  | Return body =>
      (Return (Some body), {| self := self s; world := posted (world s) o data |})
  | Raise e =>
      if is_Exception e then
        (Return None,
         {| self := self s;
            world :=
              {| warnings :=
                   list_append (warnings (world s))
                     ("Could not submit message to RocketChat: " ++ exn_str e);
                 debug_log := debug_log (posted (world s) o data);
                 http_calls := http_calls (posted (world s) o data) |} |})
      else (Raise e, {| self := self s; world := posted (world s) o data |})
  end.
Proof.
  intros Ho Hd.
  unfold send_msg, bind, get_options, lift, debug, try_except, call_open_url,
    warning, ret, delivery, posted, request_of.
  rewrite Ho, Hd. cbn [self world warnings debug_log http_calls].
  destruct (open_url E _ _) as [resp|e].
  - destruct (read resp) as [body|e]; [reflexivity|].
    destruct (is_Exception e); reflexivity.
  - destruct (is_Exception e); reflexivity.
Qed.

(** A payload that does not serialise: the exception leaves [send_msg],
    and nothing was logged or posted. *)
Lemma send_msg_dumps_raises (attachments : pyval) (s : St) (o : Options)
    (e : pyexn) :
  options (self s) = Some o ->
  json_dumps E (payload o attachments) = Raise e ->
  send_msg E attachments s = (Raise e, s).
Proof.
  intros Ho Hd. unfold send_msg, bind, get_options, lift.
  rewrite Ho, Hd. reflexivity.
Qed.

(** [send_msg] never touches the plugin object. *)
Lemma send_msg_self (attachments : pyval) (s : St) :
  self (snd (send_msg E attachments s)) = self s.
Proof.
  destruct (options (self s)) as [o|] eqn:Ho.
  - destruct (json_dumps E (payload o attachments)) as [data|e] eqn:Hd.
    + rewrite (send_msg_eq _ _ _ _ Ho Hd).
      destruct (delivery E _ _) as [body|e]; [reflexivity|].
      destruct (is_Exception e); reflexivity.
    + rewrite (send_msg_dumps_raises _ _ _ _ Ho Hd). reflexivity.
  - unfold send_msg, bind, get_options. rewrite Ho. reflexivity.
Qed.

End Delivery.

(** C4, as the code has it.  Once the payload is serialised, every
    exception (of a class derived from Exception) that [open_url] or
    [read] raises, be it a network failure or a non-success HTTP
    response, is caught: [send_msg] logs one warning that carries the
    error, makes no second attempt, and returns None without raising. *)
Theorem C4_delivery_failure_is_logged (E : Env) (attachments : pyval)
    (s : St) (o : Options) (data : string) (e : pyexn) :
  options (self s) = Some o ->
  json_dumps E (payload o attachments) = Return data ->
  delivery E (http_calls (world s)) (request_of o data) = Raise e ->
  is_Exception e = true ->
  fst (send_msg E attachments s) = Return None /\
  warnings (world (snd (send_msg E attachments s))) =
    list_append (warnings (world s))
      ("Could not submit message to RocketChat: " ++ exn_str e) /\
  http_calls (world (snd (send_msg E attachments s))) =
    list_append (http_calls (world s)) (request_of o data).
Proof.
  intros Ho Hd Hfail Hexn.
  rewrite (send_msg_eq E _ _ _ _ Ho Hd), Hfail, Hexn.
  repeat split.
Qed.

(** A webhook that cannot be reached: the play-start message is lost
    with a warning. *)
Lemma C4_witness :
  fst (send_msg (down_env None) (play_attachments "hello")
         (configured (down_env None) (Some "https://hooks.example/x") true 0))
  = Return None /\
  warnings
    (world
       (snd (send_msg (down_env None) (play_attachments "hello")
               (configured (down_env None) (Some "https://hooks.example/x") true 0))))
  = ["Could not submit message to RocketChat: <urlopen error timed out>"].
Proof.
  destruct (C4_delivery_failure_is_logged (down_env None)
              (play_attachments "hello")
              (configured (down_env None) (Some "https://hooks.example/x") true 0)
              (demo_options (Some "https://hooks.example/x") true)
              (demo_dumps
                 (payload (demo_options (Some "https://hooks.example/x") true)
                    (play_attachments "hello")))
              (MkExn true "<urlopen error timed out>")
              eq_refl eq_refl eq_refl eq_refl) as [Hr [Hw _]].
  split; [exact Hr | exact Hw].
Defined.

(** C4 fails as stated: under a serialiser that rejects the payload (a
    play name that is not UTF-8, under Python 2), [json.dumps] raises
    before the guarded block, the exception leaves [send_msg] and the
    hook, and no warning is logged. *)
Lemma C4_counterexample :
  let E := py2_env None in
  let s := configured E (Some "https://hooks.example/x") true 0 in
  let play := {| name := String (ascii_of_nat 255) "";
                 _uuid := "0242ac12-0002" |} in
  fst (send_msg E (play_attachments (play_msg (guid (self s)) play)) s)
    = Raise (MkExn true "'utf8' codec can't decode byte 0xff") /\
  fst (v2_playbook_on_play_start E play s)
    = Raise (MkExn true "'utf8' codec can't decode byte 0xff") /\
  warnings (world (snd (v2_playbook_on_play_start E play s))) = [].
Proof. vm_compute. repeat split. Qed.

(** C5: what the code does where the claim fails.  With validate_certs
    configured false, the hook makes one call to [open_url], a POST to the
    webhook with the JSON content type, but the call does not pass the
    option: the certificate is validated all the same. *)
Theorem C5_validate_certs_not_passed :
  let E := demo_env None in
  let s := configured E (Some "https://hooks.example/x") false 0 in
  let play := {| name := "deploy"; _uuid := "0242ac12-0002" |} in
  option_map validate_certs (options (self s)) = Some false /\
  exists r,
    http_calls (world (snd (v2_playbook_on_play_start E play s))) = [r] /\
    req_url r = Some "https://hooks.example/x" /\
    effective_method r = "POST" /\
    req_headers r = [("Content-type", "application/json")] /\
    req_validate_certs r = None /\
    effective_validate_certs r = true.
Proof.
  cbv zeta. split; [reflexivity|].
  eexists. split; [vm_compute; reflexivity|]. repeat split.
Qed.

(** ** Self-disabling *)

Lemma host_run_disabled (E : Env) (evs : list Event) (s : St) :
  disabled (self s) = true -> host_run E evs s = s.
Proof.
  intros Hd. unfold host_run.
  induction evs as [|ev evs IH]; simpl; [reflexivity|].
  replace (host_dispatch E s ev) with s
    by (unfold host_dispatch; rewrite Hd; reflexivity).
  exact IH.
Qed.

(** C1, as the code has it.  When [webhook_url] resolves to None,
    [set_options] sets the disabled flag and emits exactly one warning;
    the host, which skips a disabled plugin, then runs any sequence of the
    three events without a call to [open_url]: the state it is left with
    is the one [set_options] left. *)
Theorem C1_absent_webhook_disables (E : Env) (get_option : Options)
    (verbosity : Z) (s0 : St) (evs : list Event) :
  webhook_url get_option = None ->
  let s := snd (set_options get_option verbosity s0) in
  fst (set_options get_option verbosity s0) = Return tt /\
  disabled (self s) = true /\
  warnings (world s) =
    list_append (warnings (world s0))
      ("Slack Webhook URL was not provided. The "
       ++ "Slack Webhook URL can be provided using "
       ++ "the `SLACK_WEBHOOK_URL` environment "
       ++ "variable.") /\
  http_calls (world s) = http_calls (world s0) /\
  host_run E evs s = s /\
  http_calls (world (host_run E evs s)) = http_calls (world s0).
Proof.
  intros Hurl. cbv zeta.
  assert (disabled (self (snd (set_options get_option verbosity s0))) = true)
    as Hdis by (unfold set_options, bind, get_self, put_self, warning, ret;
                cbn; rewrite Hurl; reflexivity).
  rewrite (host_run_disabled E evs _ Hdis).
  unfold set_options, bind, get_self, put_self, warning, ret; cbn.
  rewrite Hurl. cbn. repeat split.
Qed.

(** No webhook configured, and the three events: one warning, no call. *)
Lemma C1_witness :
  let E := demo_env None in
  let s := configured E None true 0 in
  disabled (self s) = true /\
  List.length (warnings (world s)) = 1%nat /\
  http_calls
    (world (host_run E [RunStart "site.yml";
                        PlayStart {| name := "deploy"; _uuid := "0242ac12" |};
                        RunStats (demo_stats ["b"; "a"])] s)) = [].
Proof.
  cbv zeta.
  destruct (C1_absent_webhook_disables (demo_env None) (demo_options None true) 0
              (__init__ (demo_env None) "3f2a9c0e8b7d4c1fa5e6d7c8b9a0f1e2" no_world)
              [RunStart "site.yml";
               PlayStart {| name := "deploy"; _uuid := "0242ac12" |};
               RunStats (demo_stats ["b"; "a"])]
              eq_refl) as [_ [Hd [Hw [_ [_ Hc]]]]].
  split; [exact Hd|]. split; [|exact Hc].
  unfold configured. rewrite Hw. reflexivity.
Defined.

(** C1 fails as stated: the guard is [webhook_url is None], so a webhook
    URL that resolves to the empty string leaves the plugin enabled, no
    warning is emitted by [set_options], and the host's events reach
    [open_url]. *)
Lemma C1_counterexample :
  let E := demo_env None in
  let s := configured E (Some "") true 0 in
  let play := {| name := "deploy"; _uuid := "0242ac12" |} in
  option_map webhook_url (options (self s)) = Some (Some "") /\
  disabled (self s) = false /\
  warnings (world s) = [] /\
  List.length (http_calls (world (host_run E [PlayStart play] s))) = 1%nat /\
  List.length (http_calls (world (snd (v2_playbook_on_play_start E play s))))
    = 1%nat.
Proof. vm_compute. repeat split. Qed.

(** ** The run-start message *)

(** The block always opens with the inventory line. *)
Lemma invocation_items_cons (a : CliArgs) (inv : list string) :
  exists rest,
    invocation_items a inv = ("Inventory:  " ++ join ", " inv) :: rest.
Proof.
  unfold invocation_items, list_append.
  destruct (seq_truthy (tags a) && seq_ne_list (tags a) ["all"]),
           (seq_truthy (skip_tags a)), (opt_truthy (subset a)),
           (seq_truthy (extra_vars a)); cbn [app]; eexists; reflexivity.
Qed.

(** C6, as the code has it.  The invocation block opens with the
    Inventory line, whatever the inventory; then, in this order and each
    independently of the others, come the Tags line (when tags are
    non-empty and not the list ["all"]), the Skip Tags line, the Limit
    line and the Extra Vars line (each when its input is neither empty nor
    None). *)
Theorem C6_invocation_lines (a : CliArgs) (inv : list string) :
  invocation_items a inv =
    List.concat
      [ ["Inventory:  " ++ join ", " inv];
        line_if (seq_truthy (tags a) && seq_ne_list (tags a) ["all"])
          ("Tags:       " ++ join ", " (seq_list (tags a)));
        line_if (seq_truthy (skip_tags a))
          ("Skip Tags:  " ++ join ", " (seq_list (skip_tags a)));
        line_if (opt_truthy (subset a))
          ("Limit:      " ++ str_opt (subset a));
        line_if (seq_truthy (extra_vars a))
          ("Extra Vars: " ++ join " " (seq_list (extra_vars a))) ]
  /\ seq_truthy (SeqList ["all"]) && seq_ne_list (SeqList ["all"]) ["all"] = false
  /\ seq_truthy SeqNone = false
  /\ seq_truthy (SeqList []) = false
  /\ seq_truthy (SeqTuple []) = false
  /\ opt_truthy None = false
  /\ opt_truthy (Some "") = false.
Proof.
  split; [|repeat split].
  unfold invocation_items, list_append, line_if.
  destruct (seq_truthy (tags a) && seq_ne_list (tags a) ["all"]),
           (seq_truthy (skip_tags a)), (opt_truthy (subset a)),
           (seq_truthy (extra_vars a)); reflexivity.
Qed.

(** C6 fails as stated: with an empty inventory (and nothing else to
    show) the block still holds an Inventory line, and the run-start
    message carries it. *)
Lemma C6_counterexample :
  let a := demo_cli (SeqTuple []) (Some "deploy") in
  let E := demo_env (Some a) in
  let s := configured E (Some "https://hooks.example/x") true 2 in
  seq_truthy (inventory a) = false /\
  invocation_items a [] = ["Inventory:  "] /\
  fst (start_message E "plays/site.yml" s) =
    Return ("*Playbook initiated* (_3f2a9c_) by *deploy* " ++ LF ++ LF
            ++ "*site.yml*" ++ LF
            ++ "```" ++ LF ++ "Inventory:  " ++ LF ++ "```").
Proof. vm_compute. repeat split. Qed.

Section RunStart.

Variable E : Env.
Variable playbook_file_name : string.
Variable s : St.

(** No invocation details: the host left no command line, or the
    verbosity is below 2. *)
Lemma start_message_plain :
  CLIARGS E = None \/
  (exists o, options (self s) = Some o /\ show_invocation o = false) ->
  start_message E playbook_file_name s =
  (Return (("*Playbook initiated* (_" ++ guid (self s) ++ "_)") ++ " "
           ++ (LF ++ LF ++ "*" ++ basename E playbook_file_name ++ "*")),
   named E playbook_file_name s).
Proof.
  intros H.
  unfold start_message, named, bind, get_self, put_self, get_options, ret.
  cbn [self world guid playbook_name options disabled fst snd].
  destruct (CLIARGS E) as [a|].
  - destruct H as [H|[o [Ho Hs]]]; [discriminate|].
    rewrite Ho. cbn. rewrite Hs. reflexivity.
  - reflexivity.
Qed.

(** Invocation details shown. *)
Lemma start_message_shown (a : CliArgs) (o : Options) (inv : list string) :
  CLIARGS E = Some a ->
  options (self s) = Some o ->
  show_invocation o = true ->
  seq_items (inventory a) = Return inv ->
  start_message E playbook_file_name s =
  (Return ((("*Playbook initiated* (_" ++ guid (self s) ++ "_)") ++ " "
            ++ ("by *" ++ str_opt (remote_user a) ++ "*") ++ " "
            ++ (LF ++ LF ++ "*" ++ basename E playbook_file_name ++ "*"))
           ++ LF
           ++ ("```" ++ LF
               ++ join LF (invocation_items a (map (abspath E) inv))
               ++ LF ++ "```")),
   named E playbook_file_name s).
Proof.
  intros Ha Ho Hs Hinv.
  unfold start_message, named, bind, get_self, put_self, get_options, ret, lift.
  cbn [self world guid playbook_name options disabled fst snd].
  rewrite Ha, Ho. cbn [self options]. rewrite Hs, Hinv. cbn [fst snd].
  destruct (invocation_items_cons a (map (abspath E) inv)) as [rest ->].
  reflexivity.
Qed.

End RunStart.

(** C7, as the code has it.  The playbook name is appended as a bold
    line that ends the title part.  It ends the message when no invocation
    block is included; when one is included, the block follows it. *)
Theorem C7_playbook_name_line (E : Env) (playbook_file_name : string) (s : St) :
  let name_line := LF ++ LF ++ "*" ++ basename E playbook_file_name ++ "*" in
  (CLIARGS E = None \/
   (exists o, options (self s) = Some o /\ show_invocation o = false) ->
   exists head,
     fst (start_message E playbook_file_name s) = Return (head ++ name_line)) /\
  (forall a o inv,
     CLIARGS E = Some a ->
     options (self s) = Some o ->
     show_invocation o = true ->
     seq_items (inventory a) = Return inv ->
     exists head,
       fst (start_message E playbook_file_name s) =
       Return (head ++ name_line ++ LF
               ++ ("```" ++ LF
                   ++ join LF (invocation_items a (map (abspath E) inv))
                   ++ LF ++ "```"))).
Proof.
  cbv zeta. split.
  - intros H. rewrite (start_message_plain E playbook_file_name s H).
    exists (("*Playbook initiated* (_" ++ guid (self s) ++ "_)") ++ " ").
    cbn [fst]. rewrite !append_assoc. reflexivity.
  - intros a o inv Ha Ho Hs Hinv.
    rewrite (start_message_shown E playbook_file_name s a o inv Ha Ho Hs Hinv).
    exists (("*Playbook initiated* (_" ++ guid (self s) ++ "_)") ++ " "
            ++ ("by *" ++ str_opt (remote_user a) ++ "*") ++ " ").
    cbn [fst]. rewrite !append_assoc. reflexivity.
Qed.

(** Verbosity 0: the message ends with the playbook name in bold. *)
Lemma C7_witness :
  exists head,
    fst (start_message (demo_env None) "plays/site.yml"
           (configured (demo_env None) (Some "https://hooks.example/x") true 0))
    = Return (head ++ LF ++ LF ++ "*site.yml*").
Proof.
  apply (proj1 (C7_playbook_name_line (demo_env None) "plays/site.yml"
                  (configured (demo_env None) (Some "https://hooks.example/x")
                     true 0))).
  left. reflexivity.
Defined.

(** C7 fails as stated: with the invocation block included, the message
    ends with the block's closing fence, not with the playbook name. *)
Lemma C7_counterexample :
  let E := demo_env (Some (demo_cli (SeqTuple ["hosts"]) (Some "deploy"))) in
  let s := configured E (Some "https://hooks.example/x") true 2 in
  exists msg,
    fst (start_message E "plays/site.yml" s) = Return msg /\
    msg = "*Playbook initiated* (_3f2a9c_) by *deploy* " ++ LF ++ LF
          ++ "*site.yml*" ++ LF
          ++ "```" ++ LF ++ "Inventory:  /srv/hosts" ++ LF ++ "```" /\
    endswith msg "*site.yml*" = false /\
    endswith msg "```" = true.
Proof. cbv zeta. eexists. vm_compute. repeat split. Qed.

(** C8, as the code has it.  The title line is
    "*Playbook initiated* (_<guid>_)"; it is followed by
    "by *<remote_user>*" exactly when the host has command-line arguments
    and invocation details are shown (verbosity above 1), whatever the
    remote user: a remote user of None is printed as "None". *)
Theorem C8_title_suffix (E : Env) (playbook_file_name : string) (s : St) :
  let title := "*Playbook initiated* (_" ++ guid (self s) ++ "_)" in
  (CLIARGS E = None \/
   (exists o, options (self s) = Some o /\ show_invocation o = false) ->
   exists rest,
     fst (start_message E playbook_file_name s) =
     Return (title ++ " " ++ LF ++ rest)) /\
  (forall a o inv,
     CLIARGS E = Some a ->
     options (self s) = Some o ->
     show_invocation o = true ->
     seq_items (inventory a) = Return inv ->
     exists rest,
       fst (start_message E playbook_file_name s) =
       Return (title ++ " " ++ ("by *" ++ str_opt (remote_user a) ++ "*")
               ++ " " ++ LF ++ rest)).
Proof.
  cbv zeta. split.
  - intros H. rewrite (start_message_plain E playbook_file_name s H).
    exists (LF ++ "*" ++ basename E playbook_file_name ++ "*").
    reflexivity.
  - intros a o inv Ha Ho Hs Hinv.
    rewrite (start_message_shown E playbook_file_name s a o inv Ha Ho Hs Hinv).
    exists ((LF ++ "*" ++ basename E playbook_file_name ++ "*") ++ LF
            ++ ("```" ++ LF
                ++ join LF (invocation_items a (map (abspath E) inv))
                ++ LF ++ "```")).
    cbn [fst]. rewrite !append_assoc. reflexivity.
Qed.

(** Verbosity 2 and remote user deploy: the title says so. *)
Lemma C8_witness :
  exists rest,
    fst (start_message
           (demo_env (Some (demo_cli (SeqTuple ["hosts"]) (Some "deploy"))))
           "plays/site.yml"
           (configured
              (demo_env (Some (demo_cli (SeqTuple ["hosts"]) (Some "deploy"))))
              (Some "https://hooks.example/x") true 2))
    = Return (("*Playbook initiated* (_" ++ "3f2a9c" ++ "_)") ++ " "
              ++ ("by *" ++ "deploy" ++ "*") ++ " " ++ LF ++ rest).
Proof.
  apply (proj2 (C8_title_suffix
                  (demo_env (Some (demo_cli (SeqTuple ["hosts"]) (Some "deploy"))))
                  "plays/site.yml"
                  (configured
                     (demo_env (Some (demo_cli (SeqTuple ["hosts"]) (Some "deploy"))))
                     (Some "https://hooks.example/x") true 2))
           (demo_cli (SeqTuple ["hosts"]) (Some "deploy"))
           {| webhook_url := Some "https://hooks.example/x"; channel := "";
              username := "ansible"; show_invocation := true;
              validate_certs := true; icon_emoji := ""; icon_url := "" |}
           ["hosts"]);
    reflexivity.
Defined.

(** C8 fails as stated: invocation details are shown and no remote user
    is known (remote_user is None), and the title still carries the
    suffix, "by *None*". *)
Lemma C8_counterexample :
  let a := demo_cli (SeqTuple ["hosts"]) None in
  let E := demo_env (Some a) in
  let s := configured E (Some "https://hooks.example/x") true 2 in
  remote_user a = None /\
  exists msg,
    fst (start_message E "plays/site.yml" s) = Return msg /\
    prefix ("*Playbook initiated* (_3f2a9c_) by *None* " ++ LF) msg = true.
Proof. cbv zeta. split; [reflexivity|]. eexists. vm_compute. repeat split. Qed.

(** ** The correlation id *)

Section Guid.

Variable E : Env.

Lemma keeps_bind {A B : Type} (m : M A) (f : A -> M B) :
  keeps_guid m -> (forall a, keeps_guid (f a)) -> keeps_guid (bind m f).
Proof.
  intros Hm Hf s. unfold bind. specialize (Hm s).
  destruct (m s) as [[a|e] s']; cbn [snd] in *.
  - rewrite Hf. exact Hm.
  - exact Hm.
Qed.

Lemma keeps_ret {A : Type} (a : A) : keeps_guid (ret a).
Proof. intros s. reflexivity. Qed.

Lemma keeps_send_msg (attachments : pyval) :
  keeps_guid (send_msg E attachments).
Proof. intros s. rewrite send_msg_self. reflexivity. Qed.

Lemma keeps_set_options (get_option : Options) (verbosity : Z) :
  keeps_guid (set_options get_option verbosity).
Proof.
  intros s. unfold set_options, bind, get_self, put_self, warning, ret. cbn.
  destruct (webhook_url get_option); reflexivity.
Qed.

Lemma keeps_start_message (playbook_file_name : string) :
  keeps_guid (start_message E playbook_file_name).
Proof.
  intros s.
  unfold start_message, bind, get_self, put_self, get_options, ret, lift.
  cbn [self world guid playbook_name options disabled fst snd].
  destruct (CLIARGS E) as [a|]; [|reflexivity].
  destruct (options (self s)) as [o|]; cbn [self options]; [|reflexivity].
  destruct (show_invocation o); [|reflexivity].
  destruct (seq_items (inventory a)); reflexivity.
Qed.

Lemma keeps_play_message (play : Play) : keeps_guid (play_message play).
Proof. intros s. reflexivity. Qed.

Lemma keeps_stats_message (stats : AggregateStats) :
  keeps_guid (stats_message E stats).
Proof.
  intros s. unfold stats_message.
  destruct (HAS_PRETTYTABLE E); cbn [negb]; [|reflexivity].
  destruct (stats_loop stats) as [[f u] t]. reflexivity.
Qed.

Lemma keeps_hook (ev : Event) : keeps_guid (hook E ev).
Proof.
  destruct ev as [f|p|st]; cbn [hook];
    unfold v2_playbook_on_start, v2_playbook_on_play_start,
      v2_playbook_on_stats;
    (apply keeps_bind;
     [ first [apply keeps_start_message | apply keeps_play_message
             | apply keeps_stats_message]
     | intros a; apply keeps_bind;
       [apply keeps_send_msg | intros; apply keeps_ret] ]).
Qed.

Lemma step_guid (s s' : St) : step E s s' -> guid (self s') = guid (self s).
Proof.
  intros [o v s0|ev s0|att s0].
  - apply keeps_set_options.
  - apply keeps_hook.
  - apply keeps_send_msg.
Qed.

Lemma reachable_guid (s0 s : St) :
  reachable E s0 s -> guid (self s) = guid (self s0).
Proof.
  induction 1 as [|s s' _ IH Hstep]; [reflexivity|].
  rewrite (step_guid _ _ Hstep). exact IH.
Qed.

(** Where [start_message] returns, it is in one of its two cases. *)
Lemma start_message_returns (playbook_file_name : string) (s : St)
    (msg : string) :
  fst (start_message E playbook_file_name s) = Return msg ->
  (CLIARGS E = None \/
   (exists o, options (self s) = Some o /\ show_invocation o = false)) \/
  (exists a o inv,
     CLIARGS E = Some a /\ options (self s) = Some o /\
     show_invocation o = true /\ seq_items (inventory a) = Return inv).
Proof.
  unfold start_message, bind, get_self, put_self, get_options, ret, lift.
  cbn [self world guid playbook_name options disabled fst snd].
  destruct (CLIARGS E) as [a|]; [|intros _; left; left; reflexivity].
  destruct (options (self s)) as [o|]; cbn [self options]; [|discriminate].
  destruct (show_invocation o) eqn:Hs.
  - destruct (seq_items (inventory a)) as [inv|e] eqn:Hinv; [|discriminate].
    intros _. right. exists a, o, inv. repeat split; assumption.
  - intros _. left. right. exists o. split; [reflexivity | exact Hs].
Qed.

Lemma start_message_prefix (playbook_file_name : string) (s : St)
    (msg : string) :
  fst (start_message E playbook_file_name s) = Return msg ->
  exists rest,
    msg = ("*Playbook initiated* (_" ++ guid (self s) ++ "_)") ++ rest.
Proof.
  intros Hret.
  destruct (start_message_returns _ _ _ Hret)
    as [Hplain|[a [o [inv [Ha [Ho [Hs Hinv]]]]]]].
  - rewrite (start_message_plain E _ s Hplain) in Hret.
    injection Hret as <-. eexists. reflexivity.
  - rewrite (start_message_shown E _ s a o inv Ha Ho Hs Hinv) in Hret.
    injection Hret as <-. eexists. rewrite !append_assoc. reflexivity.
Qed.

End Guid.

(** C9.  The correlation id is set by the constructor, to the first six
    characters of the UUID drawn there, and nothing that happens to the
    plugin afterwards (setting options, any hook, any send) changes it:
    in every state the plugin can reach, each of the three messages begins
    with its headline followed by that same id. *)
Theorem C9_guid_fixed (E : Env) (uuid_hex : string) (w : World) (s : St) :
  reachable E (__init__ E uuid_hex w) s ->
  let g := substring 0 6 uuid_hex in
  guid (self s) = g /\
  (forall playbook_file_name msg,
     fst (start_message E playbook_file_name s) = Return msg ->
     exists rest, msg = ("*Playbook initiated* (_" ++ g ++ "_)") ++ rest) /\
  (forall play msg,
     fst (play_message play s) = Return msg ->
     exists rest, msg = ("*Starting play* (_" ++ g ++ "_)") ++ rest) /\
  (forall stats msg color,
     fst (stats_message E stats s) = Return (msg, color) ->
     exists rest, msg = ("*Playbook Complete* (_" ++ g ++ "_)") ++ rest).
Proof.
  intros Hreach. cbv zeta.
  assert (guid (self s) = substring 0 6 uuid_hex) as Hg.
  { rewrite (reachable_guid E _ _ Hreach). unfold __init__.
    destruct (HAS_PRETTYTABLE E); reflexivity. }
  rewrite <- Hg. split; [reflexivity|]. split; [|split].
  - intros f msg Hret. apply (start_message_prefix E f s msg Hret).
  - intros play msg Hret. unfold play_message, bind, get_self, ret in Hret.
    cbn [fst] in Hret. injection Hret as <-.
    unfold play_msg. eexists. rewrite !append_assoc. reflexivity.
  - intros stats msg color. unfold stats_message.
    destruct (HAS_PRETTYTABLE E); cbn [negb]; [|discriminate].
    destruct (stats_loop stats) as [[f u] t].
    unfold bind, get_self, ret. cbn [fst]. intros Hret.
    injection Hret as <- _.
    unfold stats_msg_items, list_append.
    destruct (f || u); unfold join; cbn [app concat]; eexists; reflexivity.
Qed.

(** After the options are set and a play has started, the next play
    message still begins with the id drawn at construction. *)
Lemma C9_witness :
  let E := demo_env None in
  let s0 := __init__ E "3f2a9c0e8b7d4c1fa5e6d7c8b9a0f1e2" no_world in
  let s1 := snd (set_options (demo_options (Some "https://hooks.example/x") true) 0 s0) in
  let s2 := snd (hook E (PlayStart {| name := "deploy"; _uuid := "0242ac12" |}) s1) in
  guid (self s2) = "3f2a9c" /\
  exists rest,
    play_msg (guid (self s2)) {| name := "verify"; _uuid := "0242ac13" |}
    = ("*Starting play* (_" ++ "3f2a9c" ++ "_)") ++ rest.
Proof.
  cbv zeta.
  destruct (C9_guid_fixed (demo_env None) "3f2a9c0e8b7d4c1fa5e6d7c8b9a0f1e2"
              no_world
              (snd (hook (demo_env None)
                      (PlayStart {| name := "deploy"; _uuid := "0242ac12" |})
                      (snd (set_options
                              (demo_options (Some "https://hooks.example/x") true) 0
                              (__init__ (demo_env None)
                                 "3f2a9c0e8b7d4c1fa5e6d7c8b9a0f1e2" no_world)))))
              (reach_step _ _ _ _
                 (reach_step _ _ _ _ (reach_here _ _) (step_set_options _ _ _ _))
                 (step_hook _ _ _)))
    as [Hg [_ [Hplay _]]].
  split; [exact Hg|].
  apply (Hplay {| name := "verify"; _uuid := "0242ac13" |}). reflexivity.
Defined.

(** * Further properties of the plugin *)

(** ** Construction and options *)

Lemma substring_prefix (p r : string) :
  substring 0 (String.length p) (p ++ r) = p.
Proof.
  induction p as [|c p IH]; simpl.
  - destruct r; reflexivity.
  - rewrite IH. reflexivity.
Qed.

Lemma substring_length_le (n : nat) :
  forall s, (String.length (substring 0 n s) <= n)%nat.
Proof.
  induction n as [|n IH]; intros [|c s]; simpl; try lia.
  specialize (IH s). lia.
Qed.

Lemma substring_length_eq (n : nat) :
  forall s, (n <= String.length s)%nat -> String.length (substring 0 n s) = n.
Proof.
  induction n as [|n IH]; intros [|c s]; simpl; intros H; try lia.
  rewrite IH; lia.
Qed.

Lemma init_guid (E : Env) (uuid_hex : string) (w : World) :
  guid (self (__init__ E uuid_hex w)) = substring 0 6 uuid_hex.
Proof. unfold __init__. destruct (HAS_PRETTYTABLE E); reflexivity. Qed.

(** X1.  Without the table library the constructor disables the plugin
    and emits its one warning; whatever options are then set, a webhook
    URL included, the plugin stays disabled, and the host runs any events
    without a call to [open_url]. *)
Theorem X1_no_prettytable_disables (E : Env) (uuid_hex : string) (w : World)
    (get_option : Options) (verbosity : Z) (evs : list Event) :
  HAS_PRETTYTABLE E = false ->
  let s0 := __init__ E uuid_hex w in
  let s := snd (set_options get_option verbosity s0) in
  disabled (self s0) = true /\
  warnings (world s0) =
    list_append (warnings w)
      ("The `prettytable` python module is not "
       ++ "installed. Disabling the RocketChat callback "
       ++ "plugin.") /\
  disabled (self s) = true /\
  host_run E evs s = s /\
  http_calls (world (host_run E evs s)) = http_calls w.
Proof.
  intros HP. cbv zeta.
  assert (disabled (self (__init__ E uuid_hex w)) = true) as Hd0
    by (unfold __init__; rewrite HP; reflexivity).
  assert (disabled (self (snd (set_options get_option verbosity
                                 (__init__ E uuid_hex w)))) = true) as Hd.
  { unfold set_options, bind, get_self, put_self, warning, ret. cbn.
    destruct (webhook_url get_option); cbn; [exact Hd0 | reflexivity]. }
  rewrite (host_run_disabled E evs _ Hd).
  repeat split; try assumption.
  - unfold __init__. rewrite HP. reflexivity.
  - unfold set_options, bind, get_self, put_self, warning, ret. cbn.
    destruct (webhook_url get_option); cbn;
      unfold __init__; rewrite HP; reflexivity.
Qed.

Lemma X1_witness :
  let E := bare_env None in
  let s := configured E (Some "https://hooks.example/x") true 0 in
  disabled (self s) = true /\
  http_calls (world (host_run E [RunStats (demo_stats ["a"])] s)) = [].
Proof.
  cbv zeta.
  destruct (X1_no_prettytable_disables (bare_env None)
              "3f2a9c0e8b7d4c1fa5e6d7c8b9a0f1e2" no_world
              (demo_options (Some "https://hooks.example/x") true) 0
              [RunStats (demo_stats ["a"])] eq_refl)
    as [_ [_ [Hd [_ Hc]]]].
  split; [exact Hd | exact Hc].
Defined.

(** X2.  The correlation id has at most six characters, exactly six for
    a UUID of six or more, and it is the UUID's first six characters: the
    other 26 hex digits play no part, so two plugin objects whose UUIDs
    begin alike carry the same id. *)
Theorem X2_guid_is_six_char_prefix (E : Env) (w : World) (uuid_hex : string) :
  (String.length (guid (self (__init__ E uuid_hex w))) <= 6)%nat /\
  ((6 <= String.length uuid_hex)%nat ->
   String.length (guid (self (__init__ E uuid_hex w))) = 6%nat) /\
  (forall p r1 r2,
     String.length p = 6%nat ->
     guid (self (__init__ E (p ++ r1) w)) = p /\
     guid (self (__init__ E (p ++ r2) w)) = p).
Proof.
  rewrite init_guid. split; [apply substring_length_le|].
  split; [apply substring_length_eq|].
  intros p r1 r2 Hp. rewrite !init_guid, <- Hp.
  split; apply substring_prefix.
Qed.

Lemma X2_witness :
  guid (self (__init__ (demo_env None) ("3f2a9c" ++ "0e8b7d4c1fa5e6d7c8b9a0f1e2")
                no_world)) = "3f2a9c" /\
  guid (self (__init__ (demo_env None) ("3f2a9c" ++ "ffffffffffffffffffffffffff")
                no_world)) = "3f2a9c".
Proof.
  apply (proj2 (proj2 (X2_guid_is_six_char_prefix (demo_env None) no_world "")))
    with (p := "3f2a9c").
  reflexivity.
Defined.

(** X3.  [set_options] returns normally, stores the seven values (with
    [show_invocation] true exactly for a verbosity above 1), keeps the
    correlation id and the playbook name, and can only disable: the
    plugin is disabled afterwards if it was before or if the webhook URL
    is None.  With a URL it does nothing to the outside; without, its
    one effect is the warning. *)
Theorem X3_set_options_only_disables (get_option : Options) (verbosity : Z)
    (s : St) :
  let s' := snd (set_options get_option verbosity s) in
  fst (set_options get_option verbosity s) = Return tt /\
  disabled (self s') = disabled (self s) || is_none (webhook_url get_option) /\
  options (self s') =
    Some {| webhook_url := webhook_url get_option;
            channel := channel get_option;
            username := username get_option;
            show_invocation := (1 <? verbosity)%Z;
            validate_certs := validate_certs get_option;
            icon_emoji := icon_emoji get_option;
            icon_url := icon_url get_option |} /\
  guid (self s') = guid (self s) /\
  playbook_name (self s') = playbook_name (self s) /\
  debug_log (world s') = debug_log (world s) /\
  http_calls (world s') = http_calls (world s) /\
  warnings (world s') =
    match webhook_url get_option with
    | Some _ => warnings (world s)
    | None =>
        list_append (warnings (world s))
          ("Slack Webhook URL was not provided. The "
           ++ "Slack Webhook URL can be provided using "
           ++ "the `SLACK_WEBHOOK_URL` environment "
           ++ "variable.")
    end.
Proof.
  unfold set_options, bind, get_self, put_self, warning, ret. cbn.
  destruct (webhook_url get_option); cbn.
  - rewrite orb_false_r. repeat split.
  - rewrite orb_true_r. repeat split.
Qed.

Lemma set_options_stores (get_option : Options) (verbosity : Z) (s : St) :
  options (self (snd (set_options get_option verbosity s))) =
    Some {| webhook_url := webhook_url get_option;
            channel := channel get_option;
            username := username get_option;
            show_invocation := (1 <? verbosity)%Z;
            validate_certs := validate_certs get_option;
            icon_emoji := icon_emoji get_option;
            icon_url := icon_url get_option |}.
Proof.
  unfold set_options, bind, get_self, put_self, warning, ret. cbn.
  destruct (webhook_url get_option); reflexivity.
Qed.

(** X4.  Whether the run-start message shows invocation details is
    decided by the verbosity given to [set_options]: at verbosity 1 or
    below the message is the bare title and playbook name, whatever the
    command line holds; at 2 or above, with a command line and an
    inventory, it carries the remote user and the fenced block. *)
Theorem X4_verbosity_decides_invocation (E : Env) (get_option : Options)
    (verbosity : Z) (s : St) (playbook_file_name : string) :
  let s' := snd (set_options get_option verbosity s) in
  let title := "*Playbook initiated* (_" ++ guid (self s) ++ "_)" in
  let name_line := LF ++ LF ++ "*" ++ basename E playbook_file_name ++ "*" in
  ((verbosity <= 1)%Z ->
   fst (start_message E playbook_file_name s') =
   Return (title ++ " " ++ name_line)) /\
  (forall a inv,
     (2 <= verbosity)%Z ->
     CLIARGS E = Some a ->
     seq_items (inventory a) = Return inv ->
     fst (start_message E playbook_file_name s') =
     Return ((title ++ " " ++ ("by *" ++ str_opt (remote_user a) ++ "*") ++ " "
              ++ name_line)
             ++ LF
             ++ ("```" ++ LF
                 ++ join LF (invocation_items a (map (abspath E) inv))
                 ++ LF ++ "```"))).
Proof.
  cbv zeta.
  pose proof (set_options_stores get_option verbosity s) as Ho.
  pose proof (keeps_set_options get_option verbosity s) as Hg.
  split.
  - intros Hv.
    rewrite (start_message_plain E playbook_file_name _
               (or_intror (ex_intro _ _ (conj Ho (proj2 (Z.ltb_ge 1 verbosity) Hv))))).
    rewrite Hg. reflexivity.
  - intros a inv Hv Ha Hinv.
    rewrite (start_message_shown E playbook_file_name _ a _ inv Ha Ho
               (proj2 (Z.ltb_lt 1 verbosity) ltac:(lia)) Hinv).
    rewrite Hg. reflexivity.
Qed.

Lemma X4_witness :
  fst (start_message
         (demo_env (Some (demo_cli (SeqTuple ["hosts"]) (Some "deploy"))))
         "plays/site.yml"
         (snd (set_options (demo_options (Some "https://hooks.example/x") true) 1
                 (__init__
                    (demo_env (Some (demo_cli (SeqTuple ["hosts"]) (Some "deploy"))))
                    "3f2a9c0e8b7d4c1fa5e6d7c8b9a0f1e2" no_world))))
  = Return ("*Playbook initiated* (_3f2a9c_) " ++ LF ++ LF ++ "*site.yml*").
Proof.
  apply (proj1 (X4_verbosity_decides_invocation
                  (demo_env (Some (demo_cli (SeqTuple ["hosts"]) (Some "deploy"))))
                  (demo_options (Some "https://hooks.example/x") true) 1
                  (__init__
                     (demo_env (Some (demo_cli (SeqTuple ["hosts"]) (Some "deploy"))))
                     "3f2a9c0e8b7d4c1fa5e6d7c8b9a0f1e2" no_world)
                  "plays/site.yml")).
  lia.
Defined.

(** ** More on delivery *)

(** X5.  A delivery that succeeds.  Once the options are set and the
    payload serialises to [data], and the webhook answers with a body,
    [send_msg] returns that body; it made exactly one call to [open_url],
    with the configured URL, [data] and the JSON content type, wrote
    [data] and the URL to the debug channel, and logged no warning. *)
Theorem X5_send_msg_success (E : Env) (attachments : pyval) (s : St)
    (o : Options) (data body : string) :
  options (self s) = Some o ->
  json_dumps E (payload o attachments) = Return data ->
  delivery E (http_calls (world s)) (request_of o data) = Return body ->
  let s' := snd (send_msg E attachments s) in
  fst (send_msg E attachments s) = Return (Some body) /\
  http_calls (world s') =
    list_append (http_calls (world s))
      {| req_url := webhook_url o; req_data := data;
         req_headers := [("Content-type", "application/json")];
         req_method := None; req_validate_certs := None |} /\
  debug_log (world s') =
    list_append (list_append (debug_log (world s)) data)
      (str_opt (webhook_url o)) /\
  warnings (world s') = warnings (world s) /\
  self s' = self s.
Proof.
  intros Ho Hd Hok. cbv zeta.
  rewrite (send_msg_eq E _ _ _ _ Ho Hd), Hok. repeat split.
Qed.

Lemma X5_witness :
  fst (send_msg (demo_env None) (play_attachments "hello")
         (configured (demo_env None) (Some "https://hooks.example/x") true 0))
  = Return (Some "{success:true}").
Proof.
  apply (X5_send_msg_success (demo_env None) (play_attachments "hello")
           (configured (demo_env None) (Some "https://hooks.example/x") true 0)
           (demo_options (Some "https://hooks.example/x") true)
           (demo_dumps (payload (demo_options (Some "https://hooks.example/x") true)
                          (play_attachments "hello")))
           "{success:true}" eq_refl eq_refl eq_refl).
Defined.

(** X6.  The handler is [except Exception]: an exception outside that
    hierarchy raised while the request is under way (a keyboard
    interrupt, a system exit) is not caught.  It leaves [send_msg], and no
    warning is logged; the call to [open_url] had been made. *)
Theorem X6_send_msg_passes_base_exceptions (E : Env) (attachments : pyval)
    (s : St) (o : Options) (data : string) (e : pyexn) :
  options (self s) = Some o ->
  json_dumps E (payload o attachments) = Return data ->
  delivery E (http_calls (world s)) (request_of o data) = Raise e ->
  is_Exception e = false ->
  let s' := snd (send_msg E attachments s) in
  fst (send_msg E attachments s) = Raise e /\
  warnings (world s') = warnings (world s) /\
  http_calls (world s') =
    list_append (http_calls (world s)) (request_of o data).
Proof.
  intros Ho Hd Hfail Hexn. cbv zeta.
  rewrite (send_msg_eq E _ _ _ _ Ho Hd), Hfail, Hexn. repeat split.
Qed.

Lemma X6_witness :
  fst (send_msg (interrupted_env None) (play_attachments "hello")
         (configured (interrupted_env None) (Some "https://hooks.example/x")
            true 0))
  = Raise (MkExn false "KeyboardInterrupt").
Proof.
  apply (X6_send_msg_passes_base_exceptions (interrupted_env None)
           (play_attachments "hello")
           (configured (interrupted_env None) (Some "https://hooks.example/x")
              true 0)
           (demo_options (Some "https://hooks.example/x") true)
           (demo_dumps (payload (demo_options (Some "https://hooks.example/x") true)
                          (play_attachments "hello")))
           (MkExn false "KeyboardInterrupt") eq_refl eq_refl eq_refl eq_refl).
Defined.

(** ** What a hook does to the plugin and to the world *)

Section Hooks.

Variable E : Env.

(** Composing the run-start message sets [playbook_name], whether it
    returns or raises, and does nothing else. *)
Lemma start_message_state (playbook_file_name : string) (s : St) :
  snd (start_message E playbook_file_name s) = named E playbook_file_name s.
Proof.
  unfold start_message, named, bind, get_self, put_self, get_options, ret, lift.
  cbn [self world guid playbook_name options disabled fst snd].
  destruct (CLIARGS E) as [a|]; [|reflexivity].
  destruct (options (self s)) as [o|]; cbn [self options]; [|reflexivity].
  destruct (show_invocation o); [|reflexivity].
  destruct (seq_items (inventory a)); reflexivity.
Qed.

Lemma stats_message_state (stats : AggregateStats) (s : St) :
  snd (stats_message E stats s) = s.
Proof.
  unfold stats_message.
  destruct (HAS_PRETTYTABLE E); cbn [negb]; [|reflexivity].
  destruct (stats_loop stats) as [[f u] t]. reflexivity.
Qed.

(** A hook either raises while it composes its message, or it is the
    [send_msg] of some attachments. *)
Lemma hook_decompose (ev : Event) (s : St) :
  (snd (hook E ev s) = composed E ev s /\ exists e, fst (hook E ev s) = Raise e)
  \/
  (exists attachments,
     snd (hook E ev s) = snd (send_msg E attachments (composed E ev s)) /\
     fst (hook E ev s) =
       match fst (send_msg E attachments (composed E ev s)) with
       | Return _ => Return tt
       | Raise e => Raise e
       end).
Proof.
  destruct ev as [f|p|st]; cbn [hook composed].
  - unfold v2_playbook_on_start, bind, ret.
    pose proof (start_message_state f s) as Hs.
    destruct (start_message E f s) as [[m|e] s1]; cbn [snd] in Hs; subst s1.
    + right. exists (start_attachments m).
      destruct (send_msg E (start_attachments m) (named E f s)) as [[r|e] s2];
        split; reflexivity.
    + left. split; [reflexivity | exists e; reflexivity].
  - right. exists (play_attachments (play_msg (guid (self s)) p)).
    unfold v2_playbook_on_play_start, play_message, bind, get_self, ret.
    destruct (send_msg E _ s) as [[r|e] s2]; split; reflexivity.
  - unfold v2_playbook_on_stats, bind, ret.
    pose proof (stats_message_state st s) as Hs.
    destruct (stats_message E st s) as [[m|e] s1]; cbn [snd] in Hs; subst s1.
    + right. exists (stats_attachments (fst m) (snd m)).
      destruct (send_msg E _ s) as [[r|e] s2]; split; reflexivity.
    + left. split; [reflexivity | exists e; reflexivity].
Qed.

Lemma composed_world (ev : Event) (s : St) : world (composed E ev s) = world s.
Proof. destruct ev; reflexivity. Qed.

Lemma composed_options (ev : Event) (s : St) :
  options (self (composed E ev s)) = options (self s).
Proof. destruct ev; reflexivity. Qed.

(** The plugin object after a hook. *)
Lemma hook_self (ev : Event) (s : St) :
  self (snd (hook E ev s)) = self (composed E ev s).
Proof.
  destruct (hook_decompose ev s) as [[-> _]|[att [-> _]]].
  - reflexivity.
  - apply send_msg_self.
Qed.

Lemma send_msg_no_options (attachments : pyval) (s : St) :
  options (self s) = None ->
  send_msg E attachments s =
  (Raise (MkExn true "'CallbackModule' object has no attribute"), s).
Proof.
  intros Ho. unfold send_msg, bind, get_options. rewrite Ho. reflexivity.
Qed.

(** The world after [send_msg]: untouched, or the two debug lines and the
    one request, with or without the warning. *)
Lemma send_msg_world (attachments : pyval) (s : St) :
  world (snd (send_msg E attachments s)) = world s \/
  exists o data,
    options (self s) = Some o /\
    json_dumps E (payload o attachments) = Return data /\
    (world (snd (send_msg E attachments s)) = posted (world s) o data \/
     exists e,
       world (snd (send_msg E attachments s)) =
       {| warnings := list_append (warnings (world s)) (submit_warning e);
          debug_log := debug_log (posted (world s) o data);
          http_calls := http_calls (posted (world s) o data) |}).
Proof.
  destruct (options (self s)) as [o|] eqn:Ho.
  - destruct (json_dumps E (payload o attachments)) as [data|e] eqn:Hd.
    + right. exists o, data. split; [reflexivity|]. split; [exact Hd|].
      rewrite (send_msg_eq E _ _ _ _ Ho Hd).
      destruct (delivery E _ _) as [body|e]; [left; reflexivity|].
      destruct (is_Exception e); [right; exists e|left]; reflexivity.
    + left. rewrite (send_msg_dumps_raises E _ _ _ _ Ho Hd). reflexivity.
  - left. rewrite (send_msg_no_options _ _ Ho). reflexivity.
Qed.

End Hooks.

Section HookEffects.

Variable E : Env.

(** A hook is its message, then [send_msg]. *)
Lemma hook_eq (ev : Event) (s : St) :
  hook E ev s =
  match hook_attachments E ev s with
  | Raise e => (Raise e, composed E ev s)
  | Return attachments =>
      (match fst (send_msg E attachments (composed E ev s)) with
       | Return _ => Return tt
       | Raise e => Raise e
       end,
       snd (send_msg E attachments (composed E ev s)))
  end.
Proof.
  destruct ev as [f|p|st]; cbn [hook composed hook_attachments].
  - unfold v2_playbook_on_start, bind, ret.
    pose proof (start_message_state E f s) as Hs.
    destruct (start_message E f s) as [[m|e] s1]; cbn [fst snd] in *; subst s1;
      [|reflexivity].
    destruct (send_msg E (start_attachments m) (named E f s)) as [[r|e] s2];
      reflexivity.
  - unfold v2_playbook_on_play_start, play_message, bind, get_self, ret.
    destruct (send_msg E _ s) as [[r|e] s2]; reflexivity.
  - unfold v2_playbook_on_stats, bind, ret.
    pose proof (stats_message_state E st s) as Hs.
    destruct (stats_message E st s) as [[m|e] s1]; cbn [fst snd] in *; subst s1;
      [|reflexivity].
    destruct (send_msg E _ s) as [[r|e] s2]; reflexivity.
Qed.

(** The world after a hook is the world after its [send_msg], if any. *)
Lemma hook_world (ev : Event) (s : St) :
  world (snd (hook E ev s)) = world s \/
  exists attachments,
    hook_attachments E ev s = Return attachments /\
    world (snd (hook E ev s)) =
    world (snd (send_msg E attachments (composed E ev s))).
Proof.
  rewrite hook_eq.
  destruct (hook_attachments E ev s) as [att|e]; cbn [snd].
  - right. exists att. split; reflexivity.
  - left. apply composed_world.
Qed.

Lemma hook_http (ev : Event) (s : St) :
  http_calls (world (snd (hook E ev s))) = http_calls (world s) \/
  exists r,
    http_calls (world (snd (hook E ev s))) =
    list_append (http_calls (world s)) r.
Proof.
  destruct (hook_world ev s) as [->|[att [_ ->]]]; [left; reflexivity|].
  destruct (send_msg_world E att (composed E ev s))
    as [->|[o [data [_ [_ [->|[e ->]]]]]]];
    rewrite ?composed_world.
  - left. reflexivity.
  - right. eexists. reflexivity.
  - right. eexists. reflexivity.
Qed.

(** Steps that make at most one call each make at most as many calls as
    there are steps, and keep the calls made before. *)
Lemma fold_http (step : St -> Event -> St) :
  (forall s ev,
     http_calls (world (step s ev)) = http_calls (world s) \/
     exists r,
       http_calls (world (step s ev)) = list_append (http_calls (world s)) r) ->
  forall evs s,
    exists more,
      http_calls (world (fold_left step evs s)) =
        (http_calls (world s) ++ more)%list /\
      (List.length more <= List.length evs)%nat.
Proof.
  intros Hstep evs. induction evs as [|ev evs IH]; intros s; cbn [fold_left].
  - exists []. rewrite app_nil_r. split; [reflexivity | apply le_n].
  - destruct (IH (step s ev)) as [more [Hm Hlen]].
    destruct (Hstep s ev) as [Hsame|[r Hr]].
    + exists more. rewrite Hm, Hsame. split; [reflexivity | cbn; lia].
    + exists (r :: more). rewrite Hm, Hr. unfold list_append.
      rewrite <- app_assoc. split; [reflexivity | cbn; lia].
Qed.

End HookEffects.

(** X7.  Before [set_options] has run, the attributes it creates do not
    exist: each of the three hooks raises, and nothing reaches the
    outside: no call to [open_url], no warning, no debug line. *)
Theorem X7_hooks_before_set_options (E : Env) (ev : Event) (s : St) :
  options (self s) = None ->
  (exists e, fst (hook E ev s) = Raise e) /\
  world (snd (hook E ev s)) = world s.
Proof.
  intros Ho. rewrite hook_eq.
  destruct (hook_attachments E ev s) as [att|e]; cbn [fst snd].
  - rewrite send_msg_no_options by (rewrite composed_options; exact Ho).
    cbn [fst snd]. split; [eexists; reflexivity | apply composed_world].
  - split; [eexists; reflexivity | apply composed_world].
Qed.

Lemma X7_witness :
  (exists e,
     fst (hook (demo_env None) (PlayStart {| name := "deploy"; _uuid := "0242" |})
            (__init__ (demo_env None) "3f2a9c0e8b7d4c1fa5e6d7c8b9a0f1e2" no_world))
     = Raise e) /\
  world
    (snd (hook (demo_env None) (PlayStart {| name := "deploy"; _uuid := "0242" |})
            (__init__ (demo_env None) "3f2a9c0e8b7d4c1fa5e6d7c8b9a0f1e2" no_world)))
  = no_world.
Proof.
  apply (X7_hooks_before_set_options (demo_env None)
           (PlayStart {| name := "deploy"; _uuid := "0242" |})
           (__init__ (demo_env None) "3f2a9c0e8b7d4c1fa5e6d7c8b9a0f1e2" no_world)).
  reflexivity.
Defined.

(** X8.  No retry and no batching: a hook makes at most one call to
    [open_url] and keeps the record of the calls made before; so any
    sequence of n hook calls, made directly or through the host, adds at
    most n calls. *)
Theorem X8_at_most_one_call_per_event (E : Env) (evs : list Event) (s : St) :
  (forall ev,
     http_calls (world (snd (hook E ev s))) = http_calls (world s) \/
     exists r,
       http_calls (world (snd (hook E ev s))) =
       list_append (http_calls (world s)) r) /\
  (exists more,
     http_calls (world (call_hooks E evs s)) =
       (http_calls (world s) ++ more)%list /\
     (List.length more <= List.length evs)%nat) /\
  (exists more,
     http_calls (world (host_run E evs s)) =
       (http_calls (world s) ++ more)%list /\
     (List.length more <= List.length evs)%nat).
Proof.
  split; [intros ev; apply hook_http|]. split.
  - apply (fold_http (fun s ev => snd (hook E ev s))).
    intros s0 ev. apply hook_http.
  - apply (fold_http (host_dispatch E)).
    intros s0 ev. unfold host_dispatch.
    destruct (disabled (self s0)); [left; reflexivity | apply hook_http].
Qed.

Lemma call_hooks_self (E : Env) (evs : list Event) :
  forall s,
    disabled (self (call_hooks E evs s)) = disabled (self s) /\
    options (self (call_hooks E evs s)) = options (self s) /\
    guid (self (call_hooks E evs s)) = guid (self s) /\
    playbook_name (self (call_hooks E evs s)) =
      last_run_start E evs (playbook_name (self s)).
Proof.
  unfold call_hooks, last_run_start.
  induction evs as [|ev evs IH]; intros s; cbn [fold_left].
  - repeat split.
  - destruct (IH (snd (hook E ev s))) as [Hd [Ho [Hg Hn]]].
    rewrite Hd, Ho, Hg, Hn, !hook_self.
    destruct ev; repeat split.
Qed.

(** X9.  The hooks never write the configuration: after any sequence of
    hook calls, whether deliveries failed or hooks raised, the disabled
    flag, the seven option values and the correlation id are what they
    were.  In particular a failed delivery never disables the plugin. *)
Theorem X9_hooks_keep_configuration (E : Env) (evs : list Event) (s : St) :
  disabled (self (call_hooks E evs s)) = disabled (self s) /\
  options (self (call_hooks E evs s)) = options (self s) /\
  guid (self (call_hooks E evs s)) = guid (self s).
Proof.
  destruct (call_hooks_self E evs s) as [Hd [Ho [Hg _]]].
  repeat split; assumption.
Qed.

(** X10.  The run-start hook records the base name of the playbook file
    as [playbook_name] even when it goes on to raise or its delivery
    fails; the other two hooks leave the name alone.  After any sequence
    of hooks the name is that of the last run-start. *)
Theorem X10_playbook_name_tracks_run_start (E : Env) (evs : list Event)
    (s : St) :
  (forall f,
     playbook_name (self (snd (hook E (RunStart f) s))) = Some (basename E f)) /\
  (forall p,
     playbook_name (self (snd (hook E (PlayStart p) s))) =
     playbook_name (self s)) /\
  (forall st,
     playbook_name (self (snd (hook E (RunStats st) s))) =
     playbook_name (self s)) /\
  playbook_name (self (call_hooks E evs s)) =
    last_run_start E evs (playbook_name (self s)).
Proof.
  split; [intros f; rewrite hook_self; reflexivity|].
  split; [intros p; rewrite hook_self; reflexivity|].
  split; [intros st; rewrite hook_self; reflexivity|].
  apply call_hooks_self.
Qed.

(** X11.  A hook logs at most one warning, the delivery warning, and
    only when it has made its call to [open_url]; the warnings logged
    before are kept. *)
Theorem X11_one_warning_per_failed_call (E : Env) (ev : Event) (s : St) :
  warnings (world (snd (hook E ev s))) = warnings (world s) \/
  exists e r,
    warnings (world (snd (hook E ev s))) =
      list_append (warnings (world s)) (submit_warning e) /\
    http_calls (world (snd (hook E ev s))) =
      list_append (http_calls (world s)) r.
Proof.
  destruct (hook_world E ev s) as [->|[att [_ ->]]]; [left; reflexivity|].
  destruct (send_msg_world E att (composed E ev s))
    as [->|[o [data [_ [_ [->|[e ->]]]]]]];
    rewrite ?composed_world.
  - left. reflexivity.
  - left. reflexivity.
  - right. exists e. eexists. split; reflexivity.
Qed.

Lemma hook_posts_request (E : Env) (ev : Event) (s : St)
    (o : Options) (attachments : pyval) (data : string) :
  options (self s) = Some o ->
  hook_attachments E ev s = Return attachments ->
  json_dumps E (payload o attachments) = Return data ->
  http_calls (world (snd (hook E ev s))) =
    list_append (http_calls (world s)) (request_of o data).
Proof.
  intros Ho Hatt Hd. rewrite hook_eq, Hatt. cbn [snd].
  assert (options (self (composed E ev s)) = Some o) as Ho'
    by (rewrite composed_options; exact Ho).
  rewrite (send_msg_eq E _ _ _ _ Ho' Hd), composed_world.
  destruct (delivery E _ _) as [body|e]; [reflexivity|].
  destruct (is_Exception e); reflexivity.
Qed.

(** X12.  From the event to the wire.  When a hook composes its
    attachments and the payload built from them and the options
    serialises, the hook makes exactly one call to [open_url], whatever
    the network then does: to the configured URL, with that serialised
    payload as data. *)
Theorem X12_hook_posts_serialised_payload (E : Env) (ev : Event) (s : St)
    (o : Options) (attachments : pyval) (data : string) :
  options (self s) = Some o ->
  hook_attachments E ev s = Return attachments ->
  json_dumps E (payload o attachments) = Return data ->
  http_calls (world (snd (hook E ev s))) =
    list_append (http_calls (world s))
      {| req_url := webhook_url o; req_data := data;
         req_headers := [("Content-type", "application/json")];
         req_method := None; req_validate_certs := None |}.
Proof.
  intros Ho Hatt Hd. apply (hook_posts_request E ev s o attachments data Ho Hatt Hd).
Qed.

Lemma X12_witness :
  http_calls
    (world
       (snd (hook (down_env None) (PlayStart {| name := ""; _uuid := "0242" |})
               (configured (down_env None) (Some "https://hooks.example/x") true 0))))
  = [ {| req_url := Some "https://hooks.example/x";
         req_data :=
           demo_dumps
             (payload (demo_options (Some "https://hooks.example/x") true)
                (play_attachments
                   ("*Starting play* (_3f2a9c_)" ++ LF ++ LF
                    ++ "*Play name not specified (0242)*")));
         req_headers := [("Content-type", "application/json")];
         req_method := None; req_validate_certs := None |} ].
Proof.
  apply (X12_hook_posts_serialised_payload (down_env None)
           (PlayStart {| name := ""; _uuid := "0242" |})
           (configured (down_env None) (Some "https://hooks.example/x") true 0)
           (demo_options (Some "https://hooks.example/x") true)
           (play_attachments
              ("*Starting play* (_3f2a9c_)" ++ LF ++ LF
               ++ "*Play name not specified (0242)*"))
           _ eq_refl eq_refl eq_refl).
Defined.

(** Where the options are set, the table library is there and the
    inventory is a sequence, every hook composes its attachments. *)
Lemma hook_attachments_returns (E : Env) (ev : Event) (s : St) (o : Options) :
  options (self s) = Some o ->
  HAS_PRETTYTABLE E = true ->
  (forall a, CLIARGS E = Some a -> inventory a <> SeqNone) ->
  exists attachments, hook_attachments E ev s = Return attachments.
Proof.
  intros Ho HP Hinv. destruct ev as [f|p|st]; cbn [hook_attachments].
  - destruct (CLIARGS E) as [a|] eqn:Ha.
    + destruct (show_invocation o) eqn:Hs.
      * destruct (inventory a) as [|l|l] eqn:Hi;
          [exfalso; apply (Hinv a eq_refl Hi)| |];
          rewrite (start_message_shown E f s a o l Ha Ho Hs)
            by (rewrite Hi; reflexivity);
          eexists; reflexivity.
      * rewrite (start_message_plain E f s)
          by (right; exists o; split; assumption).
        eexists; reflexivity.
    + rewrite (start_message_plain E f s) by (left; exact Ha).
      eexists; reflexivity.
  - eexists; reflexivity.
  - unfold stats_message. rewrite HP. cbn [negb].
    destruct (stats_loop st) as [[fl u] t]. eexists; reflexivity.
Qed.

(** X13.  One event, one delivery attempt.  Where the options are set,
    the table library is there, the inventory is a sequence and every
    payload serialises, a sequence of n hook calls makes exactly n calls
    to [open_url], whatever the network answers to each: a delivery that
    failed is neither repeated nor does it stop the later ones. *)
Theorem X13_one_call_per_event (E : Env) (evs : list Event) (s : St)
    (o : Options) :
  options (self s) = Some o ->
  HAS_PRETTYTABLE E = true ->
  (forall a, CLIARGS E = Some a -> inventory a <> SeqNone) ->
  (forall v, exists data, json_dumps E v = Return data) ->
  exists more,
    http_calls (world (call_hooks E evs s)) =
      (http_calls (world s) ++ more)%list /\
    List.length more = List.length evs.
Proof.
  intros Ho HP Hinv Hjson. revert s Ho. unfold call_hooks.
  induction evs as [|ev evs IH]; intros s Ho; cbn [fold_left].
  - exists []. rewrite app_nil_r. split; reflexivity.
  - destruct (hook_attachments_returns E ev s o Ho HP Hinv) as [att Hatt].
    destruct (Hjson (payload o att)) as [data Hd].
    destruct (IH (snd (hook E ev s))) as [more [Hm Hlen]].
    { rewrite hook_self, composed_options. exact Ho. }
    exists (request_of o data :: more).
    rewrite Hm, (hook_posts_request E ev s o att data Ho Hatt Hd).
    unfold list_append. rewrite <- app_assoc.
    split; [reflexivity | cbn; rewrite Hlen; reflexivity].
Qed.

(** Three events against a webhook that is down: three calls. *)
Lemma X13_witness :
  exists more,
    http_calls
      (world
         (call_hooks (down_env None)
            [RunStart "site.yml";
             PlayStart {| name := "deploy"; _uuid := "0242" |};
             RunStats (demo_stats ["b"; "a"])]
            (configured (down_env None) (Some "https://hooks.example/x") true 0)))
    = ([] ++ more)%list /\
    List.length more = 3%nat.
Proof.
  apply (X13_one_call_per_event (down_env None)
           [RunStart "site.yml";
            PlayStart {| name := "deploy"; _uuid := "0242" |};
            RunStats (demo_stats ["b"; "a"])]
           (configured (down_env None) (Some "https://hooks.example/x") true 0)
           (demo_options (Some "https://hooks.example/x") true)).
  - reflexivity.
  - reflexivity.
  - intros a Ha. discriminate Ha.
  - intros v. eexists. reflexivity.
Defined.

(** ** More on the statistics table *)

Lemma le_neq_lt (a b : string) : str_le a b -> a <> b -> str_lt a b.
Proof.
  unfold str_le, str_lt, String.leb, String.ltb. intros Hle Hne.
  destruct (String.compare a b) eqn:Hc; try congruence.
  exfalso. apply Hne, String.compare_eq_iff, Hc.
Qed.

Lemma sorted_nodup_strict (l : list string) :
  StronglySorted str_le l -> NoDup l -> StronglySorted str_lt l.
Proof.
  induction 1 as [|a l Hs IH Ha]; intros Hnd; [constructor|].
  inversion Hnd as [|? ? Hnotin Hnd']; subst.
  constructor; [apply IH, Hnd'|].
  rewrite Forall_forall in *. intros b Hb.
  apply le_neq_lt; [apply Ha, Hb|]. intros ->. apply Hnotin, Hb.
Qed.

(** X14.  The table has the seven columns Host, Ok, Changed,
    Unreachable, Failures, Rescued, Ignored, as many rows as there are
    processed hosts, and every row has seven cells: the host name, then
    the six counters in the order of the columns. *)
Theorem X14_table_is_rectangular (stats : AggregateStats) :
  let t := snd (stats_loop stats) in
  field_names t = ["Host"; "Ok"; "Changed"; "Unreachable";
                   "Failures"; "Rescued"; "Ignored"] /\
  List.length (rows t) = List.length (processed stats) /\
  Forall (fun r => List.length r = List.length (field_names t)) (rows t) /\
  Forall (fun r =>
            exists h,
              In h (processed stats) /\
              r = [CStr h;
                   CInt (ok (summarize stats h));
                   CInt (changed (summarize stats h));
                   CInt (unreachable (summarize stats h));
                   CInt (failures (summarize stats h));
                   CInt (rescued (summarize stats h));
                   CInt (ignored (summarize stats h))]) (rows t).
Proof.
  cbv zeta. rewrite stats_loop_eq. cbn [snd field_names rows].
  split; [reflexivity|]. split; [|split].
  - rewrite length_map. apply Permutation_length, sorted_perm.
  - rewrite Forall_forall. intros r Hr.
    apply in_map_iff in Hr. destruct Hr as [h [<- _]]. reflexivity.
  - rewrite Forall_forall. intros r Hr.
    apply in_map_iff in Hr. destruct Hr as [h [<- Hin]].
    exists h. split; [|reflexivity].
    apply Permutation_in with (sorted (processed stats));
      [apply sorted_perm | exact Hin].
Qed.

(** X15.  The keys of a dict are distinct, and then the host names of
    the table are strictly increasing: no host has two rows. *)
Theorem X15_rows_strictly_ascending (stats : AggregateStats) :
  NoDup (processed stats) ->
  StronglySorted str_lt (map row_host (rows (snd (stats_loop stats)))) /\
  NoDup (map row_host (rows (snd (stats_loop stats)))).
Proof.
  intros Hnd. rewrite stats_loop_eq. cbn [snd rows]. rewrite map_row_host.
  assert (NoDup (sorted (processed stats))) as Hnd'
    by (apply Permutation_NoDup with (processed stats);
        [apply Permutation_sym, sorted_perm | exact Hnd]).
  split; [|exact Hnd'].
  apply sorted_nodup_strict; [apply sorted_sorted | exact Hnd'].
Qed.

Lemma X15_witness :
  StronglySorted str_lt
    (map row_host (rows (snd (stats_loop (demo_stats ["web2"; "db"; "web1"]))))) /\
  NoDup (map row_host (rows (snd (stats_loop (demo_stats ["web2"; "db"; "web1"]))))).
Proof.
  apply (X15_rows_strictly_ascending (demo_stats ["web2"; "db"; "web1"])).
  repeat constructor; simpl; intuition discriminate.
Defined.

(** X16.  A run that processed no host: the statistics message says
    Success, in color good, over a table without rows. *)
Theorem X16_no_hosts_is_success (E : Env) (stats : AggregateStats) (s : St) :
  HAS_PRETTYTABLE E = true ->
  processed stats = [] ->
  fst (stats_message E stats s) =
  Return (("*Playbook Complete* (_" ++ guid (self s) ++ "_)") ++ LF
          ++ (LF ++ "*Success!*") ++ LF
          ++ ("```" ++ LF
              ++ table_str E {| field_names := ["Host"; "Ok"; "Changed";
                                                "Unreachable"; "Failures";
                                                "Rescued"; "Ignored"];
                                rows := [] |}
              ++ LF ++ "```"),
          "good").
Proof.
  intros HP Hnone. unfold stats_message, stats_loop.
  rewrite HP, Hnone. reflexivity.
Qed.

Lemma X16_witness :
  exists msg,
    fst (stats_message (demo_env None) (demo_stats [])
           (configured (demo_env None) (Some "https://hooks.example/x") true 0))
    = Return (msg, "good").
Proof.
  eexists.
  apply (X16_no_hosts_is_success (demo_env None) (demo_stats [])
           (configured (demo_env None) (Some "https://hooks.example/x") true 0));
    reflexivity.
Defined.

(** X17.  Without the table library the statistics hook cannot build
    its table: called all the same (not through the host, which skips a
    disabled plugin) it raises NameError and leaves the plugin and the
    world as they were. *)
Theorem X17_stats_without_prettytable (E : Env) (stats : AggregateStats)
    (s : St) :
  HAS_PRETTYTABLE E = false ->
  v2_playbook_on_stats E stats s =
  (Raise (MkExn true "name 'prettytable' is not defined"), s).
Proof.
  intros HP. unfold v2_playbook_on_stats, stats_message, bind, raise.
  rewrite HP. reflexivity.
Qed.

Lemma X17_witness :
  fst (v2_playbook_on_stats (bare_env None) (demo_stats ["a"])
         (configured (bare_env None) (Some "https://hooks.example/x") true 0))
  = Raise (MkExn true "name 'prettytable' is not defined").
Proof.
  rewrite (X17_stats_without_prettytable (bare_env None) (demo_stats ["a"])
             (configured (bare_env None) (Some "https://hooks.example/x") true 0)
             eq_refl).
  reflexivity.
Defined.

(** ** More on the run-start message *)

(** X18.  With invocation details shown, an inventory of None makes the
    run-start hook raise TypeError when it builds the list of paths:
    nothing is sent or logged, but the playbook name has been recorded. *)
Theorem X18_inventory_none_raises (E : Env) (playbook_file_name : string)
    (s : St) (a : CliArgs) (o : Options) :
  CLIARGS E = Some a ->
  options (self s) = Some o ->
  show_invocation o = true ->
  inventory a = SeqNone ->
  v2_playbook_on_start E playbook_file_name s =
  (Raise (MkExn true "'NoneType' object is not iterable"),
   named E playbook_file_name s).
Proof.
  intros Ha Ho Hs Hi.
  unfold v2_playbook_on_start, start_message, named, bind, get_self, put_self,
    get_options, ret, lift.
  cbn [self world guid playbook_name options disabled fst snd].
  rewrite Ha, Ho. cbn [self options]. rewrite Hs, Hi. reflexivity.
Qed.

Lemma X18_witness :
  fst (v2_playbook_on_start (demo_env (Some (demo_cli SeqNone (Some "deploy"))))
         "plays/site.yml"
         (configured (demo_env (Some (demo_cli SeqNone (Some "deploy"))))
            (Some "https://hooks.example/x") true 2))
  = Raise (MkExn true "'NoneType' object is not iterable").
Proof.
  rewrite (X18_inventory_none_raises
             (demo_env (Some (demo_cli SeqNone (Some "deploy"))))
             "plays/site.yml"
             (configured (demo_env (Some (demo_cli SeqNone (Some "deploy"))))
                (Some "https://hooks.example/x") true 2)
             (demo_cli SeqNone (Some "deploy"))
             {| webhook_url := Some "https://hooks.example/x"; channel := "";
                username := "ansible"; show_invocation := true;
                validate_certs := true; icon_emoji := ""; icon_url := "" |}
             eq_refl eq_refl eq_refl eq_refl).
  reflexivity.
Defined.

(** X19.  The test on the tags is [tags != ['all']], a comparison with a
    list.  Tags that come as a tuple are never equal to it: every
    non-empty tuple of tags, ('all',) included, gives a Tags line, the
    second line of the block.  Tags that come as a list give it unless
    the list is empty or is ['all']. *)
Theorem X19_tags_as_tuple_are_shown (a : CliArgs) (inv : list string)
    (l : list string) :
  l <> [] ->
  (tags a = SeqTuple l ->
   nth_error (invocation_items a inv) 1 =
   Some ("Tags:       " ++ join ", " l)) /\
  (tags a = SeqList l -> l <> ["all"] ->
   nth_error (invocation_items a inv) 1 =
   Some ("Tags:       " ++ join ", " l)).
Proof.
  intros Hl. split.
  - intros Ht. unfold invocation_items, list_append. rewrite Ht.
    destruct l as [|x l]; [congruence|]. cbn [seq_truthy seq_ne_list seq_list
      List.length Nat.eqb negb andb].
    destruct (seq_truthy (skip_tags a)), (opt_truthy (subset a)),
             (seq_truthy (extra_vars a)); reflexivity.
  - intros Ht Hall. unfold invocation_items, list_append. rewrite Ht.
    destruct l as [|x l]; [congruence|]. cbn [seq_truthy seq_ne_list seq_list
      List.length Nat.eqb negb andb].
    destruct (list_eq_dec string_dec (x :: l) ["all"]) as [Heq|_];
      [contradiction|]. cbn [negb].
    destruct (seq_truthy (skip_tags a)), (opt_truthy (subset a)),
             (seq_truthy (extra_vars a)); reflexivity.
Qed.

Lemma X19_witness :
  nth_error
    (invocation_items
       {| tags := SeqTuple ["all"]; skip_tags := SeqTuple [];
          extra_vars := SeqTuple []; subset := None;
          inventory := SeqTuple ["hosts"]; remote_user := None |}
       ["/srv/hosts"]) 1
  = Some ("Tags:       " ++ join ", " ["all"]).
Proof.
  apply (proj1 (X19_tags_as_tuple_are_shown
                  {| tags := SeqTuple ["all"]; skip_tags := SeqTuple [];
                     extra_vars := SeqTuple []; subset := None;
                     inventory := SeqTuple ["hosts"]; remote_user := None |}
                  ["/srv/hosts"] ["all"] ltac:(discriminate))).
  reflexivity.
Defined.

(** ** The play-start message *)

(** X20.  Composing the play-start message never fails and changes
    nothing.  A play with a name is announced under it; a play whose name
    is empty is announced as "Play name not specified (<uuid>)". *)
Theorem X20_play_message_names_the_play (play : Play) (s : St) :
  play_message play s = (Return (play_msg (guid (self s)) play), s) /\
  (name play <> "" ->
   play_msg (guid (self s)) play =
   "*Starting play* (_" ++ guid (self s) ++ "_)" ++ LF ++ LF
   ++ "*" ++ name play ++ "*") /\
  (name play = "" ->
   play_msg (guid (self s)) play =
   "*Starting play* (_" ++ guid (self s) ++ "_)" ++ LF ++ LF
   ++ "*" ++ ("Play name not specified (" ++ _uuid play ++ ")") ++ "*").
Proof.
  split; [reflexivity|]. unfold play_msg. split.
  - intros Hn. apply String.eqb_neq in Hn. rewrite Hn. reflexivity.
  - intros ->. reflexivity.
Qed.

Lemma X20_witness :
  play_msg
    (guid (self (configured (demo_env None) (Some "https://hooks.example/x") true 0)))
    {| name := ""; _uuid := "0242ac12" |}
  = "*Starting play* (_3f2a9c_)" ++ LF ++ LF
    ++ "*Play name not specified (0242ac12)*".
Proof.
  apply (proj2 (proj2 (X20_play_message_names_the_play
                         {| name := ""; _uuid := "0242ac12" |}
                         (configured (demo_env None)
                            (Some "https://hooks.example/x") true 0)))).
  reflexivity.
Defined.

(** X21.  Serialisation comes before the guarded block: when
    [json.dumps] raises on the payload, whatever the class of the
    exception, [send_msg] raises it on; no debug line was written, no
    warning logged, and [open_url] was not called. *)
Theorem X21_serialisation_failure_propagates (E : Env) (attachments : pyval)
    (s : St) (o : Options) (e : pyexn) :
  options (self s) = Some o ->
  json_dumps E (payload o attachments) = Raise e ->
  fst (send_msg E attachments s) = Raise e /\
  snd (send_msg E attachments s) = s.
Proof.
  intros Ho Hd. rewrite (send_msg_dumps_raises E _ _ _ _ Ho Hd).
  split; reflexivity.
Qed.

Lemma X21_witness :
  snd (send_msg (py2_env None)
         (play_attachments (String (ascii_of_nat 255) ""))
         (configured (py2_env None) (Some "https://hooks.example/x") true 0))
  = configured (py2_env None) (Some "https://hooks.example/x") true 0.
Proof.
  apply (X21_serialisation_failure_propagates (py2_env None)
           (play_attachments (String (ascii_of_nat 255) ""))
           (configured (py2_env None) (Some "https://hooks.example/x") true 0)
           (demo_options (Some "https://hooks.example/x") true)
           (MkExn true "'utf8' codec can't decode byte 0xff")
           eq_refl eq_refl).
Defined.

(** ** The attachment each hook posts *)

(** C10.  What each hook posts, once the options are set: when its
    message composes and the payload serialises, the hook makes exactly
    one call to [open_url], and the data of that call is the serialised
    payload whose attachments item is the hook's list of exactly one
    attachment.  The run-start and statistics attachments hold the
    message under fields[0].value (and fallback) and have no text key;
    the play-start attachment holds it under text (and fallback) and has
    no fields key; all three carry mrkdwn_in = [text, fallback, fields]. *)
Theorem C10_attachment_posted (E : Env) (s : St) (o : Options) :
  options (self s) = Some o ->
  (forall f msg data,
     fst (start_message E f s) = Return msg ->
     json_dumps E (payload o (start_attachments msg)) = Return data ->
     http_calls (world (snd (v2_playbook_on_start E f s))) =
       list_append (http_calls (world s))
         {| req_url := webhook_url o; req_data := data;
            req_headers := [("Content-type", "application/json")];
            req_method := None; req_validate_certs := None |}) /\
  (forall play data,
     json_dumps E
       (payload o (play_attachments (play_msg (guid (self s)) play)))
       = Return data ->
     http_calls (world (snd (v2_playbook_on_play_start E play s))) =
       list_append (http_calls (world s))
         {| req_url := webhook_url o; req_data := data;
            req_headers := [("Content-type", "application/json")];
            req_method := None; req_validate_certs := None |}) /\
  (forall stats msg color data,
     fst (stats_message E stats s) = Return (msg, color) ->
     json_dumps E (payload o (stats_attachments msg color)) = Return data ->
     http_calls (world (snd (v2_playbook_on_stats E stats s))) =
       list_append (http_calls (world s))
         {| req_url := webhook_url o; req_data := data;
            req_headers := [("Content-type", "application/json")];
            req_method := None; req_validate_certs := None |}) /\
  (forall attachments,
     item (payload o attachments) "attachments" = Some attachments) /\
  (forall msg,
     len (start_attachments msg) = Some 1%nat /\
     attachment_item (start_attachments msg) "fields"
       = Some (VList [VDict [("value", VStr msg)]]) /\
     attachment_item (start_attachments msg) "fallback" = Some (VStr msg) /\
     attachment_has (start_attachments msg) "text" = false /\
     attachment_item (start_attachments msg) "mrkdwn_in"
       = Some (VList [VStr "text"; VStr "fallback"; VStr "fields"])) /\
  (forall msg color,
     len (stats_attachments msg color) = Some 1%nat /\
     attachment_item (stats_attachments msg color) "fields"
       = Some (VList [VDict [("value", VStr msg)]]) /\
     attachment_item (stats_attachments msg color) "fallback"
       = Some (VStr msg) /\
     attachment_has (stats_attachments msg color) "text" = false /\
     attachment_item (stats_attachments msg color) "mrkdwn_in"
       = Some (VList [VStr "text"; VStr "fallback"; VStr "fields"])) /\
  (forall msg,
     len (play_attachments msg) = Some 1%nat /\
     attachment_item (play_attachments msg) "text" = Some (VStr msg) /\
     attachment_item (play_attachments msg) "fallback" = Some (VStr msg) /\
     attachment_has (play_attachments msg) "fields" = false /\
     attachment_item (play_attachments msg) "mrkdwn_in"
       = Some (VList [VStr "text"; VStr "fallback"; VStr "fields"])).
Proof.
  intros Ho. split; [|split; [|split]].
  - intros f msg data Hm Hd.
    apply (hook_posts_request E (RunStart f) s o (start_attachments msg) data Ho);
      [|exact Hd].
    cbn [hook_attachments]. rewrite Hm. reflexivity.
  - intros play data Hd.
    apply (hook_posts_request E (PlayStart play) s o
             (play_attachments (play_msg (guid (self s)) play)) data Ho);
      [reflexivity | exact Hd].
  - intros stats msg color data Hm Hd.
    apply (hook_posts_request E (RunStats stats) s o
             (stats_attachments msg color) data Ho); [|exact Hd].
    cbn [hook_attachments]. rewrite Hm. reflexivity.
  - repeat split.
Qed.

(** A play-start event: the one request carries the serialised payload
    with the play attachment. *)
Lemma C10_witness :
  http_calls
    (world
       (snd (v2_playbook_on_play_start (demo_env None)
               {| name := "deploy"; _uuid := "0242ac12" |}
               (configured (demo_env None) (Some "https://hooks.example/x")
                  true 0))))
  = [ {| req_url := Some "https://hooks.example/x";
         req_data :=
           demo_dumps
             (payload (demo_options (Some "https://hooks.example/x") true)
                (play_attachments
                   ("*Starting play* (_3f2a9c_)" ++ LF ++ LF ++ "*deploy*")));
         req_headers := [("Content-type", "application/json")];
         req_method := None; req_validate_certs := None |} ].
Proof.
  apply (proj1 (proj2
           (C10_attachment_posted (demo_env None)
              (configured (demo_env None) (Some "https://hooks.example/x") true 0)
              (demo_options (Some "https://hooks.example/x") true) eq_refl))
           {| name := "deploy"; _uuid := "0242ac12" |}).
  reflexivity.
Defined.
